(** * vcfpy.cyhtslib: a shallow embedding of the htslib-backed reader

    The development follows [vcfpy/cyhtslib/cyhtslib.pyx]: the helper
    functions [to_bytes]/[from_bytes], the [HeaderLineFactory], the
    [VCFFile] class and the [Record] class with its accessors.

    Python values are embedded with their dynamic type, with the
    meaning they have in Python 3, the language of vcfpy: [bytes] and
    [str] are different types, which is why the source converts between
    them all the time, and several results depend on which of the two a
    value is.  A [char*] that reaches Python code does so as [bytes].
    Native htslib structures are records; a C pointer is an [option]
    ([None] is [NULL]); a counted C array is a list.  Exceptions and
    native crashes are results of the [outcome] monad.  A [VCFFile] is
    shared by the records read from it and mutated through them: files
    live in a store and a record holds a location. *)

From Stdlib Require Import ZArith String Ascii.
From stdpp Require Import base option list gmap strings.

#[local] Set Warnings "-register-all".
Local Open Scope string_scope.
Local Open Scope list_scope.
Local Open Scope Z_scope.

(** ** Python values and exceptions *)

Inductive pyval :=
| PyNone
| PyInt (z : Z)
| PyFloat (bits : Z)        (* a C float widened to a Python float; kept as its 32 bits *)
| PyBytes (b : string)
| PyStr (s : string)
| PyList (xs : list pyval).

Inductive exn :=
| Exception (fmt : string) (arg : pyval)
| IOError (fmt : string) (arg : pyval)
| TypeError (msg : string)
| ValueError
| AttributeError
| AssertionError
| KeyError (k : string)
| UnicodeDecodeError
| UnicodeEncodeError
| StopIteration
| OverflowError
| Segfault.   (* native access through NULL, through None or out of bounds *)

Inductive outcome (A : Type) :=
| Return (a : A)
| Raise (e : exn).
Arguments Return {A} a.
Arguments Raise {A} e.

#[global] Instance outcome_ret : MRet outcome := fun A a => Return a.
#[global] Instance outcome_bind : MBind outcome := fun A B f m =>
  match m with
  | Return a => f a
  | Raise e => Raise e
  end.

Definition from_option {A} (e : exn) (o : option A) : outcome A :=
  match o with
  | Some a => Return a
  | None => Raise e
  end.

Fixpoint mapM {A B} (f : A -> outcome B) (l : list A) : outcome (list B) :=
  match l with
  | [] => Return []
  | a :: l' => b ← f a; bs ← mapM f l'; Return (b :: bs)
  end.

(** ** Built-in string operations

    [str.split(sep)] and [bytes.split(sep)]: cut at every non-overlapping
    occurrence of [sep], scanning from the left.  [skip] counts the
    characters of a separator that has just been matched and is still to
    be dropped. *)

Fixpoint split_by (sep : string) (skip : nat) (s : string) : list string :=
  match s with
  | EmptyString => [EmptyString]
  | String a s' =>
      match skip with
      | S k => split_by sep k s'
      | O =>
          if String.prefix sep s
          then EmptyString :: split_by sep (Nat.pred (String.length sep)) s'
          else match split_by sep 0 s' with
               | w :: ws => String a w :: ws
               | [] => [String a EmptyString]
               end
      end
  end.

Definition str_split (sep s : string) : outcome (list string) :=
  match sep with
  | EmptyString => Raise ValueError
  | _ => Return (split_by sep 0 s)
  end.

Definition as_bytes (v : pyval) : outcome string :=
  match v with
  | PyBytes b => Return b
  | _ => Raise (TypeError "a bytes-like object is required")
  end.

Definition as_str (v : pyval) : outcome string :=
  match v with
  | PyStr s => Return s
  | _ => Raise (TypeError "expected str instance")
  end.

(** [recv.split(sep)] with both operands dynamically typed. *)
Definition py_split (recv sep : pyval) : outcome pyval :=
  match recv with
  | PyBytes b =>
      sp ← as_bytes sep; ws ← str_split sp b; Return (PyList (PyBytes <$> ws))
  | PyStr s =>
      sp ← as_str sep; ws ← str_split sp s; Return (PyList (PyStr <$> ws))
  | _ => Raise AttributeError
  end.

(** [sep.join(items)]. *)
Definition py_join (sep : pyval) (items : list pyval) : outcome pyval :=
  match sep with
  | PyBytes sp => ws ← mapM as_bytes items; Return (PyBytes (String.concat sp ws))
  | PyStr sp => ws ← mapM as_str items; Return (PyStr (String.concat sp ws))
  | _ => Raise AttributeError
  end.

(** [a == b] on the values the source compares, which are integers,
    [bytes] and [str]: a [bytes] object never equals a [str] object. *)
Definition py_eq (a b : pyval) : bool :=
  match a, b with
  | PyNone, PyNone => true
  | PyInt x, PyInt y => x =? y
  | PyBytes x, PyBytes y => String.eqb x y
  | PyStr x, PyStr y => String.eqb x y
  | _, _ => false
  end.

(** Indexing a C array of [n] elements at a C [int].  A read outside
    the array is undefined in C; it is written as a native fault, and
    the statements about [keys], [vals] and [allele] are made where
    the counts of the record match the arrays, so that every read is
    inside. *)
Definition c_index {A} (l : list A) (i : Z) : outcome A :=
  if i <? 0 then Raise Segfault else from_option Segfault (l !! Z.to_nat i).

(** [range(lo, hi)]. *)
Definition py_range (lo hi : Z) : list Z :=
  (fun k => lo + Z.of_nat k) <$> seq 0 (Z.to_nat (hi - lo)).

(** ** Text encodings

    A [str] is represented by its UTF-8 encoding, so that [s.encode()]
    is the identity and [b.decode()] (UTF-8, strict) checks that [b] is
    well-formed UTF-8 and returns it.  Cutting or joining at an ASCII
    character commutes with this representation. *)

Definition byte_in (lo hi : Z) (a : ascii) : bool :=
  (lo <=? Z.of_N (N_of_ascii a)) && (Z.of_N (N_of_ascii a) <=? hi).

Definition utf8_cont := byte_in 0x80 0xBF.

Definition utf8_two (a b : ascii) : bool :=
  byte_in 0xC2 0xDF a && utf8_cont b.

Definition utf8_three (a b c : ascii) : bool :=
  ((byte_in 0xE0 0xE0 a && byte_in 0xA0 0xBF b)
   || (byte_in 0xE1 0xEC a && utf8_cont b)
   || (byte_in 0xED 0xED a && byte_in 0x80 0x9F b)
   || (byte_in 0xEE 0xEF a && utf8_cont b))
  && utf8_cont c.

Definition utf8_four (a b c d : ascii) : bool :=
  ((byte_in 0xF0 0xF0 a && byte_in 0x90 0xBF b)
   || (byte_in 0xF1 0xF3 a && utf8_cont b)
   || (byte_in 0xF4 0xF4 a && byte_in 0x80 0x8F b))
  && utf8_cont c && utf8_cont d.

Fixpoint utf8_valid (s : string) : bool :=
  match s with
  | EmptyString => true
  | String a r =>
      if byte_in 0 0x7F a then utf8_valid r
      else match r with
           | EmptyString => false
           | String b r2 =>
               if utf8_two a b then utf8_valid r2
               else match r2 with
                    | EmptyString => false
                    | String c r3 =>
                        if utf8_three a b c then utf8_valid r3
                        else match r3 with
                             | EmptyString => false
                             | String d r4 => utf8_four a b c d && utf8_valid r4
                             end
                    end
           end
  end.

(** [b.decode()] and [b.decode('utf8')]. *)
Definition decode (b : string) : outcome string :=
  if utf8_valid b then Return b else Raise UnicodeDecodeError.

(** [len(v)]: the length of a [str] is its number of code points, the
    bytes of its encoding that are not continuation bytes. *)
Definition py_len (v : pyval) : outcome Z :=
  match v with
  | PyList xs => Return (Z.of_nat (length xs))
  | PyBytes s => Return (Z.of_nat (String.length s))
  | PyStr s =>
      Return (Z.of_nat (length (List.filter (fun a => negb (utf8_cont a))
                                            (list_ascii_of_string s))))
  | _ => Raise (TypeError "object has no len()")
  end.

(** What the interpreter and its locale provide: the codec of [ENC]
    (the preferred encoding, read once at import) and [repr] on [str]. *)
Class PyRuntime := {
  ENC_decode : string -> option string;
  ENC_encode : string -> option string;
  py_repr : string -> string
}.

(** ** htslib structures *)

Record bcf_info_t := { info_key : Z; info_vptr : string }.
Record bcf_fmt_t := { fmt_id : Z; fmt_p : string }.

(** [bcf_dec_t]: the unpacked part of a record.  [flt] with its count
    [n_flt] is one list. *)
Record bcf_dec_t := {
  d_id : string;
  d_allele : list string;
  d_flt : list Z;
  d_info : list bcf_info_t;
  d_fmt : list bcf_fmt_t
}.

Definition n_flt (d : bcf_dec_t) : Z := Z.of_nat (length (d_flt d)).

(** [bcf1_t]: [qual] is the 32 bits of a C [float]; [shared] and [indiv]
    are the packed site and sample blocks. *)
Record bcf1_t := {
  rid : Z;
  pos : Z;
  qual : Z;
  n_allele : Z;
  shared : string;
  indiv : string;
  unpacked : Z;
  d : bcf_dec_t
}.

(** [bcf_hrec_t]: [keys]/[vals] are parallel arrays of [nkeys] entries;
    [value] is [NULL] on structured lines. *)
Record bcf_hrec_t := {
  hrec_type : Z;
  hrec_key : string;
  hrec_value : option string;
  hrec_keys : list string;
  hrec_vals : list string
}.

Definition nkeys (h : bcf_hrec_t) : Z := Z.of_nat (length (hrec_keys h)).

Definition BCF_HL_FLT := 0.
Definition BCF_HL_INFO := 1.
Definition BCF_HL_FMT := 2.
Definition BCF_HL_CTG := 3.
Definition BCF_HL_STR := 4.
Definition BCF_HL_GEN := 5.

Definition BCF_DT_ID := 0.
Definition BCF_DT_CTG := 1.
Definition BCF_DT_SAMPLE := 2.

(** [bcf_hdr_t]: the three dictionaries, the sample names and the header
    records ([hrec] with its count [nhrec]). *)
Record bcf_hdr_t := {
  id_dict : list string;
  ctg_dict : list string;
  hdr_samples : list string;
  hrec : list bcf_hrec_t
}.

Definition nhrec (h : bcf_hdr_t) : Z := Z.of_nat (length (hrec h)).
Definition bcf_hdr_nsamples (h : bcf_hdr_t) : Z := Z.of_nat (length (hdr_samples h)).

Definition hdr_dict (h : bcf_hdr_t) (type : Z) : list string :=
  if type =? BCF_DT_ID then id_dict h
  else if type =? BCF_DT_CTG then ctg_dict h
  else hdr_samples h.

(** [bcf_hdr_int2id(hdr, type, i)] is [hdr->id[type][i].key]. *)
Definition bcf_hdr_int2id (h : bcf_hdr_t) (type i : Z) : outcome string :=
  c_index (hdr_dict h type) i.

(** [bcf_hdr_id2name(hdr, rid)] is [hdr->id[BCF_DT_CTG][rid].key]. *)
Definition bcf_hdr_id2name (h : bcf_hdr_t) (rid : Z) : outcome string :=
  c_index (ctg_dict h) rid.

Inductive htsExactFormat := unknown_format | sam | bam | vcf | bcf.

#[global] Instance htsExactFormat_eq_dec : EqDecision htsExactFormat.
Proof. solve_decision. Defined.

(** What the native library and the operating system provide and the
    source only calls: [path_exists] and [fd_exists] are
    [os.path.exists] on a path and on a file descriptor. *)
Class Htslib := {
  htsFile : Type;
  path_exists : string -> bool;
  fd_exists : Z -> bool;
  hts_open : string -> string -> option htsFile;
  hts_format : htsFile -> htsExactFormat;
  bcf_hdr_read : htsFile -> option bcf_hdr_t * htsFile;
  bcf_read : htsFile -> bcf_hdr_t -> Z * bcf1_t * htsFile;
  hts_set_threads : htsFile -> Z -> Z * htsFile;
  bcf_hdr_set_samples : bcf_hdr_t -> string -> Z -> Z * bcf_hdr_t;
  unpack_str : string -> string * list string;
  unpack_flt : string -> list Z;
  unpack_info : string -> list bcf_info_t;
  unpack_fmt : string -> list bcf_fmt_t
}.

Definition BCF_UN_STR := 1.
Definition BCF_UN_FLT := 2.
Definition BCF_UN_INFO := 4.
Definition BCF_UN_SHR := 7.
Definition BCF_UN_FMT := 8.

Definition has_bits (mask bits : Z) : bool := negb (Z.land mask bits =? 0).

Definition set_d_str (dd : bcf_dec_t) (ia : string * list string) : bcf_dec_t :=
  {| d_id := fst ia; d_allele := snd ia; d_flt := d_flt dd;
     d_info := d_info dd; d_fmt := d_fmt dd |}.
Definition set_d_flt (dd : bcf_dec_t) (f : list Z) : bcf_dec_t :=
  {| d_id := d_id dd; d_allele := d_allele dd; d_flt := f;
     d_info := d_info dd; d_fmt := d_fmt dd |}.
Definition set_d_info (dd : bcf_dec_t) (i : list bcf_info_t) : bcf_dec_t :=
  {| d_id := d_id dd; d_allele := d_allele dd; d_flt := d_flt dd;
     d_info := i; d_fmt := d_fmt dd |}.
Definition set_d_fmt (dd : bcf_dec_t) (f : list bcf_fmt_t) : bcf_dec_t :=
  {| d_id := d_id dd; d_allele := d_allele dd; d_flt := d_flt dd;
     d_info := d_info dd; d_fmt := f |}.

Definition with_d (b : bcf1_t) (bit : Z) (dd : bcf_dec_t) : bcf1_t :=
  {| rid := rid b; pos := pos b; qual := qual b; n_allele := n_allele b;
     shared := shared b; indiv := indiv b;
     unpacked := Z.lor (unpacked b) bit; d := dd |}.

(** One group of [bcf_unpack]: decoded when asked for and not yet done. *)
Definition unpack_group (which bit : Z) (dec : bcf1_t -> bcf_dec_t) (b : bcf1_t) : bcf1_t :=
  if has_bits which bit && negb (has_bits (unpacked b) bit)
  then with_d b bit (dec b) else b.

(** Modelled from the spec: [bcf_unpack] is htslib's and not part of the
    source file.  The spec has mode-dependent depth: the eager mask
    unpacks all field groups, the lazy mask only the variant-level ones;
    a group is decoded from the packed blocks at most once.  As in
    htslib, asking for the filters implies the strings and asking for
    INFO implies the whole shared block. *)
Definition bcf_unpack {lib : Htslib} (b : bcf1_t) (which : Z) : bcf1_t :=
  match shared b with
  | EmptyString => b
  | _ =>
      let which := if has_bits which BCF_UN_FLT then Z.lor which BCF_UN_STR else which in
      let which := if has_bits which BCF_UN_INFO then Z.lor which BCF_UN_SHR else which in
      let b := unpack_group which BCF_UN_STR
                 (fun b => set_d_str (d b) (unpack_str (shared b))) b in
      let b := unpack_group which BCF_UN_FLT
                 (fun b => set_d_flt (d b) (unpack_flt (shared b))) b in
      let b := unpack_group which BCF_UN_INFO
                 (fun b => set_d_info (d b) (unpack_info (shared b))) b in
      unpack_group which BCF_UN_FMT
        (fun b => set_d_fmt (d b) (unpack_fmt (indiv b))) b
  end.

Definition bcf_float_missing := 0x7F800001.

(** Modelled from the spec: [bcf_float_is_missing] is htslib's and not
    part of the source file.  The spec reserves one bit pattern of the
    32-bit float for a missing value and compares the exact pattern. *)
Definition bcf_float_is_missing (q : Z) : bool := q =? bcf_float_missing.

(** What [vcfpy.header] provides: the header-line values, the generic
    [HeaderLine(key, value)] constructor and the parser registry of
    [build_header_parsers()], each parser through its [parse_key_value]. *)
Class HeaderModel := {
  header_line : Type;
  HeaderLine : string -> string -> header_line;
  build_header_parsers : gmap string (string -> string -> outcome header_line)
}.

Inductive WarningHelper := mkWarningHelper.

#[global] Instance outcome_fmap : FMap outcome := fun A B f m =>
  match m with
  | Return a => Return (f a)
  | Raise e => Raise e
  end.

(** ** Module-level helpers *)

Section helpers.
Context {rt : PyRuntime}.

Definition to_bytes (s : pyval) : outcome pyval :=
  match s with
  | PyBytes _ => Return s
  | PyStr x => from_option UnicodeEncodeError (PyBytes <$> ENC_encode x)
  | _ => Raise AttributeError
  end.

Definition from_bytes (s : pyval) : outcome pyval :=
  match s with
  | PyBytes b =>
      match ENC_decode b with
      | Some x => Return (PyStr x)
      | None => PyStr <$> decode b
      end
  | _ => Return s
  end.

(** [from_bytes] applied to a [char*], which reaches it as [bytes]. *)
Definition from_cstr (p : string) : outcome string :=
  v ← from_bytes (PyBytes p); as_str v.
End helpers.

(** [OrderedDict(pairs)]: a repeated key keeps its first position and
    takes the last value. *)
Fixpoint od_set (k v : string) (m : list (string * string)) : list (string * string) :=
  match m with
  | [] => [(k, v)]
  | (k', v') :: m' =>
      if String.eqb k' k then (k', v) :: m' else (k', v') :: od_set k v m'
  end.

Definition OrderedDict (pairs : list (string * string)) : list (string * string) :=
  fold_left (fun m kv => od_set (fst kv) (snd kv) m) pairs [].

(** ** HeaderLineFactory *)

Module HeaderLineFactory.
Section defs.
Context {rt : PyRuntime} {hm : HeaderModel}.

Record t := {
  hdr : option bcf_hdr_t;
  warning_helper : WarningHelper;
  parsers : gmap string (string -> string -> outcome header_line)
}.

(** [HeaderLineFactory.__init__(HeaderLineFactory)], the call by which
    [newHeaderLineFactory] means to obtain its instance.  The class
    defines no [__init__]: the attribute found on it is
    [object.__init__], called here with the class object as [self].  It
    allocates nothing and returns [None] (an allocation is
    [HeaderLineFactory.__new__(HeaderLineFactory)], the form [newRecord]
    uses), and [None] is accepted by the typed variable it is stored
    in. *)
Definition __init__ : option t := None.

(** The [OrderedDict] built from the parallel [keys]/[vals] arrays. *)
Definition mapping_of (hrec : bcf_hrec_t) : outcome (list (string * string)) :=
  pairs ← mapM (fun i =>
                  k ← (p ← c_index (hrec_keys hrec) i; from_cstr p);
                  v ← (p ← c_index (hrec_vals hrec) i; from_cstr p);
                  Return (k, v))
               (py_range 0 (nkeys hrec));
  Return (OrderedDict pairs).

(** [','.join('%s=%s' % (k, repr(v)) for k, v in mapping.items())]. *)
Definition mapping_s_of (mapping : list (string * string)) : string :=
  String.concat "," ((fun kv => fst kv ++ "=" ++ py_repr (snd kv))%string <$> mapping).

Definition _build_parsed (self : t) (hrec : bcf_hrec_t) : outcome header_line :=
  mapping ← mapping_of hrec;
  let mapping_s := mapping_s_of mapping in
  key ← from_cstr (hrec_key hrec);
  dflt ← from_option (KeyError "__default__") (parsers self !! "__default__");
  let parser := default dflt (parsers self !! key) in
  parser key mapping_s.

Definition _build_generic (self : t) (hrec : bcf_hrec_t) : outcome header_line :=
  key ← from_cstr (hrec_key hrec);
  value ← (p ← from_option Segfault (hrec_value hrec); from_cstr p);
  Return (HeaderLine key value).

Definition build (self : t) (hrec : bcf_hrec_t) : outcome header_line :=
  if hrec_type hrec =? BCF_HL_GEN
  then _build_generic self hrec
  else _build_parsed self hrec.
End defs.
End HeaderLineFactory.

(** The three assignments write the fields of [result] in place,
    through the reference, with no test for [None]. *)
Definition newHeaderLineFactory {hm : HeaderModel}
    (hdr : option bcf_hdr_t) (warning_helper : WarningHelper)
    : outcome HeaderLineFactory.t :=
  let result := HeaderLineFactory.__init__ in
  _ ← from_option Segfault result;
  Return {| HeaderLineFactory.hdr := hdr;
            HeaderLineFactory.warning_helper := warning_helper;
            HeaderLineFactory.parsers := build_header_parsers |}.

(** The arguments handed to [vcfpy.header.Header]. *)
Record Header {hm : HeaderModel} := {
  header_lines : list header_line;
  header_samples : pyval;
  header_warning_helper : WarningHelper
}.

(** ** Conversion to a C [int] *)

(** [int(x)] on a [float], given by its binary32 bits: truncation
    towards zero; [ValueError] on a NaN, [OverflowError] on an
    infinity. *)
Definition float_to_int (q : Z) : outcome Z :=
  let e := Z.land (Z.shiftr q 23) 0xFF in
  let m := Z.land q 0x7FFFFF in
  if e =? 0xFF then (if m =? 0 then Raise OverflowError else Raise ValueError)
  else
    let mag := if e =? 0 then 0
               else if 150 <=? e then (2 ^ 23 + m) * 2 ^ (e - 150)
               else (2 ^ 23 + m) / 2 ^ (150 - e) in
    Return (if Z.testbit q 31 then - mag else mag).

Definition in_c_int (k : Z) : bool := (- 2 ^ 31 <=? k) && (k <? 2 ^ 31).

(** What the compiled code does with an object where a C [int] is
    declared (an [int n] argument, an [int] attribute): an [int] is
    taken when it fits and raises [OverflowError] when it does not, a
    [float] goes through [int(x)] first, anything else is refused. *)
Definition as_c_int (v : pyval) : outcome Z :=
  match v with
  | PyInt k => if in_c_int k then Return k else Raise OverflowError
  | PyFloat q => k ← float_to_int q;
                 if in_c_int k then Return k else Raise OverflowError
  | _ => Raise (TypeError "an integer is required")
  end.

(** ** VCFFile *)

(** Index structures are never inspected, only held and released. *)
Record tbx_t := { tbx_addr : N }.
Record hts_idx_t := { hts_idx_addr : N }.

(** Python objects that are shared and mutated live in a store; a
    reference is a location in it. *)
Definition loc := positive.

Module VCFFile.
Section defs.
Context {rt : PyRuntime} {lib : Htslib} {hm : HeaderModel}.

Record t := {
  hts : option htsFile;
  hdr : option bcf_hdr_t;
  idx : option tbx_t;
  hidx : option hts_idx_t;
  n_samples : Z;
  PASS : Z;
  fname : pyval;
  lazy : bool;
  samples : pyval;
  _seqnames : list pyval;
  format_types : list (string * pyval)
}.

(** Calls that release native memory, in the order they are made. *)
Inductive release :=
| bcf_hdr_destroy (h : bcf_hdr_t)
| hts_close (f : htsFile)
| tbx_destroy (i : tbx_t)
| hts_idx_destroy (i : hts_idx_t)
| bcf_destroy (b : bcf1_t).

Definition set_hts (self : t) (v : option htsFile) : t :=
  {| hts := v; hdr := hdr self; idx := idx self; hidx := hidx self;
     n_samples := n_samples self; PASS := PASS self; fname := fname self;
     lazy := lazy self; samples := samples self; _seqnames := _seqnames self;
     format_types := format_types self |}.

Definition set_hdr (self : t) (v : option bcf_hdr_t) : t :=
  {| hts := hts self; hdr := v; idx := idx self; hidx := hidx self;
     n_samples := n_samples self; PASS := PASS self; fname := fname self;
     lazy := lazy self; samples := samples self; _seqnames := _seqnames self;
     format_types := format_types self |}.

Definition set_PASS (self : t) (v : Z) : t :=
  {| hts := hts self; hdr := hdr self; idx := idx self; hidx := hidx self;
     n_samples := n_samples self; PASS := v; fname := fname self;
     lazy := lazy self; samples := samples self; _seqnames := _seqnames self;
     format_types := format_types self |}.

(** A [cdef class] instance before [__init__] runs: every C field is
    zero and every object field is [None]. *)
Definition allocated : t :=
  {| hts := None; hdr := None; idx := None; hidx := None;
     n_samples := 0; PASS := 0; fname := PyNone; lazy := false;
     samples := PyNone; _seqnames := []; format_types := [] |}.

(** [set_threads(self, int n)]: the argument is converted when the
    method is entered, before its body runs. *)
Definition set_threads (self : t) (n : pyval) : outcome unit * t :=
  match as_c_int n with
  | Raise e => (Raise e, self)
  | Return n =>
      match hts self with
      | None => (Raise Segfault, self)
      | Some f =>
          let '(v, f') := hts_set_threads f n in
          let self := set_hts self (Some f') in
          if v <? 0
          then (Raise (Exception "error setting number of threads: %d" (PyInt v)), self)
          else (Return tt, self)
      end
  end.

Definition stderr_warning : string :=
  String.append "warning: not all samples in PED found in VCF"
                (String (ascii_of_nat 10) EmptyString).

(** [set_samples]: the outcome carries what was written to [stderr]. *)
Definition set_samples (self : t) (samples : pyval) : outcome (list string) * t :=
  let samples0 := match samples with PyNone => PyBytes "-" | _ => samples end in
  let samples1 :=
    match samples0 with
    | PyList xs => s ← py_join (PyStr ",") xs; to_bytes s
    | _ => to_bytes samples0
    end in
  match samples1 ≫= (fun sb => c ← as_bytes sb; h ← from_option Segfault (hdr self);
                               Return (sb, c, h)) with
  | Raise e => (Raise e, self)
  | Return (samples, c, h) =>
      let '(ret, h') := bcf_hdr_set_samples h c 0 in
      let self := set_hdr self (Some h') in
      if negb (ret >=? 0) then (Raise AssertionError, self)
      else if negb (ret =? 0) && negb (py_eq samples (PyStr "-")) then
        (s ← py_split samples (PyStr ",");
         n ← py_len s;
         if ret <? n
         then Return [stderr_warning]
         else Return [],
         self)
      else (Return [], self)
  end.

Definition get_samples (self : t) : outcome pyval :=
  h ← from_option Segfault (hdr self);
  PyList <$> mapM (fun i => p ← c_index (hdr_samples h) i; from_bytes (PyBytes p))
                  (py_range 0 (bcf_hdr_nsamples h)).

Definition __init__ (fname mode : pyval) (lazy : bool) (samples threads : pyval)
    : outcome (list string * t) :=
  let self := allocated in
  exists_ ← match fname with
            | PyBytes p | PyStr p => Return (path_exists p)
            | PyInt k => if in_c_int k then Return (fd_exists k) else Raise OverflowError
            | _ => Raise (TypeError "stat: path should be string, bytes or integer")
            end;
  if negb exists_ then Raise (Exception "bad path: %s" fname) else
  fname ← to_bytes fname;
  mode ← to_bytes mode;
  cfname ← as_bytes fname;
  cmode ← as_bytes mode;
  match hts_open cfname cmode with
  | None => Raise (IOError "Error opening %s" fname)
  | Some f =>
      if negb (bool_decide (hts_format f = vcf)) && negb (bool_decide (hts_format f = bcf))
      then Raise (IOError "%s if not valid bcf or vcf" fname)
      else
        let '(h, f) := bcf_hdr_read f in
        let self := set_hdr (set_hts self (Some f)) h in
        '(err, self) ← match samples with
                       | PyNone => Return ([], self)
                       | _ => match set_samples self samples with
                              | (Return w, self) => Return (w, self)
                              | (Raise e, _) => Raise e
                              end
                       end;
        h ← from_option Segfault (hdr self);
        let n := bcf_hdr_nsamples h in
        samples ← match samples with
                  | PyNone => get_samples self
                  | _ => Return samples
                  end;
        fname ← to_bytes fname;
        let self :=
          {| hts := hts self; hdr := hdr self; idx := idx self; hidx := hidx self;
             n_samples := n; PASS := -1; fname := fname; lazy := lazy;
             samples := samples; _seqnames := []; format_types := [] |} in
        match threads with
        | PyNone => Return (err, self)
        | _ => match set_threads self threads with
               | (Return _, self) => Return (err, self)
               | (Raise e, _) => Raise e
               end
        end
  end.

(** Lines 212 and 213: the first entry is built once and dropped, then
    every entry is built in turn. *)
Definition load_lines (factory : HeaderLineFactory.t) (h : bcf_hdr_t)
    : outcome (list header_line) :=
  _ ← (r ← c_index (hrec h) 0; HeaderLineFactory.build factory r);
  mapM (fun i => r ← c_index (hrec h) i; HeaderLineFactory.build factory r)
       (py_range 0 (nhrec h)).

Definition load_header (self : t) : outcome Header :=
  let wh := mkWarningHelper in
  factory ← newHeaderLineFactory (hdr self) wh;
  h ← from_option Segfault (hdr self);
  lines ← load_lines factory h;
  Return {| header_lines := lines; header_samples := samples self;
            header_warning_helper := wh |}.

Definition __dealloc__ (self : t) : list release * t :=
  let '(t1, self) :=
    match hdr self with
    | Some h => ([bcf_hdr_destroy h], set_hdr self None)
    | None => ([], self)
    end in
  let '(t2, self) :=
    match hts self with
    | Some f => ([hts_close f], set_hts self None)
    | None => ([], self)
    end in
  let t3 := match idx self with Some i => [tbx_destroy i] | None => [] end in
  let t4 := match hidx self with Some i => [hts_idx_destroy i] | None => [] end in
  (t1 ++ t2 ++ t3 ++ t4, self).
End defs.
End VCFFile.

(** ** Record *)

(** C arithmetic on [int32_t], the type of [bcf1_t.pos]. *)
Definition wrap_int32 (z : Z) : Z := (z + 2 ^ 31) mod 2 ^ 32 - 2 ^ 31.

Module Record.
Section defs.
Context {rt : PyRuntime} {lib : Htslib} {hm : HeaderModel}.

(** [b] points to the record's own [bcf1_t]; [vcf] refers to the
    [VCFFile] it was read from. *)
Record t := {
  b : option bcf1_t;
  vcf : option loc
}.

Definition __cinit__ : t := {| b := None; vcf := None |}.

Definition __init__ (self : t) (args : list pyval) (kwargs : list (string * pyval))
    : outcome unit :=
  Raise (TypeError "Variant object cannot be instantiated directly.").

(** Calling the class with any positional and keyword arguments:
    allocation with [__cinit__], then [__init__]. *)
Definition __call__ (args : list pyval) (kwargs : list (string * pyval)) : outcome t :=
  let self := __cinit__ in
  _ ← __init__ self args kwargs;
  Return self.

Definition the_b (self : t) : outcome bcf1_t := from_option Segfault (b self).

Definition the_vcf (self : t) (σ : gmap loc VCFFile.t) : outcome VCFFile.t :=
  l ← from_option Segfault (vcf self); from_option Segfault (σ !! l).

Definition CHROM (self : t) (σ : gmap loc VCFFile.t) : outcome pyval :=
  f ← the_vcf self σ;
  h ← from_option Segfault (VCFFile.hdr f);
  bb ← the_b self;
  name ← bcf_hdr_id2name h (rid bb);
  PyStr <$> decode name.

Definition POS (self : t) : outcome pyval :=
  bb ← the_b self;
  Return (PyInt (wrap_int32 (pos bb + 1))).

Definition ID (self : t) : outcome pyval :=
  bb ← the_b self;
  let id := d_id (d bb) in
  if py_eq (PyBytes id) (PyBytes ".") then Return (PyList [])
  else s ← decode id; py_split (PyStr s) (PyStr ";").

Definition REF (self : t) : outcome pyval :=
  bb ← the_b self;
  a ← c_index (d_allele (d bb)) 0;
  PyStr <$> decode a.

Definition ALT (self : t) : outcome pyval :=
  bb ← the_b self;
  PyList <$> mapM (fun i => a ← c_index (d_allele (d bb)) i; PyStr <$> decode a)
                  (py_range 1 (n_allele bb)).

Definition QUAL (self : t) : outcome pyval :=
  bb ← the_b self;
  let q := qual bb in
  if bcf_float_is_missing q then Return PyNone else Return (PyFloat q).

(** Lines 334 to 336 of the source, reached when [n] is not 1 and
    also when the single filter of a record is not the cached one.  The
    file is looked at only when there are names to resolve. *)
Definition FILTER_rest (bb : bcf1_t) (file : outcome VCFFile.t) : outcome pyval :=
  let n := n_flt (d bb) in
  if n =? 0 then Return (PyList [])
  else
    f ← file;
    h ← from_option Segfault (VCFFile.hdr f);
    names ← mapM (fun i => fi ← c_index (d_flt (d bb)) i;
                           PyBytes <$> bcf_hdr_int2id h BCF_DT_ID fi)
                 (py_range 0 n);
    py_join (PyBytes ";") names.

(** [FILTER] reads and may write the [PASS] field of the shared
    [VCFFile]: it returns the new store next to its result. *)
Definition FILTER (self : t) (σ : gmap loc VCFFile.t)
    : outcome pyval * gmap loc VCFFile.t :=
  match the_b self with
  | Raise e => (Raise e, σ)
  | Return bb =>
      let n := n_flt (d bb) in
      if n =? 1 then
        match (l ← from_option Segfault (vcf self);
               f ← from_option Segfault (σ !! l); Return (l, f)) with
        | Raise e => (Raise e, σ)
        | Return (l, f) =>
            if negb (VCFFile.PASS f =? -1) then
              match c_index (d_flt (d bb)) 0 with
              | Raise e => (Raise e, σ)
              | Return f0 =>
                  if f0 =? VCFFile.PASS f then (Return (PyList []), σ)
                  else (FILTER_rest bb (Return f), σ)
              end
            else
              match (h ← from_option Segfault (VCFFile.hdr f);
                     f0 ← c_index (d_flt (d bb)) 0;
                     v ← bcf_hdr_int2id h BCF_DT_ID f0;
                     Return (f0, v)) with
              | Raise e => (Raise e, σ)
              | Return (f0, v) =>
                  if py_eq (PyBytes v) (PyBytes "PASS")
                  then (Return (PyList [PyStr "PASS"]), <[l := VCFFile.set_PASS f f0]> σ)
                  else (Return (PyBytes v), σ)
              end
        end
      else (FILTER_rest bb (the_vcf self σ), σ)
  end.
End defs.
End Record.

Definition newRecord {lib : Htslib} (b : bcf1_t) (vcf : loc) (σ : gmap loc VCFFile.t)
    : outcome Record.t :=
  f ← from_option Segfault (σ !! vcf);
  let b := if negb (VCFFile.lazy f)
           then bcf_unpack b 15
           else bcf_unpack b (Z.lor (Z.lor 1 2) 4) in
  Return {| Record.b := Some b; Record.vcf := Some vcf |}.

(** [VCFFile.__next__], placed after [newRecord], which it calls. *)
Definition VCFFile__next__ {lib : Htslib} (self : loc) (σ : gmap loc VCFFile.t)
    : outcome Record.t * list VCFFile.release * gmap loc VCFFile.t :=
  match σ !! self with
  | None => (Raise Segfault, [], σ)
  | Some f =>
      match VCFFile.hts f, VCFFile.hdr f with
      | Some s, Some h =>
          let '(ret, b, s') := bcf_read s h in
          let σ := <[self := VCFFile.set_hts f (Some s')]> σ in
          if ret >=? 0 then (newRecord b self σ, [], σ)
          else (Raise StopIteration, [VCFFile.bcf_destroy b], σ)
      | _, _ => (Raise Segfault, [], σ)
      end
  end.

(** ** Notions used by the statements *)

(** IEEE 754 binary32: all exponent bits set and a non-zero fraction. *)
Definition is_nan32 (q : Z) : bool :=
  (Z.land (Z.shiftr q 23) 0xFF =? 0xFF) && negb (Z.land q 0x7FFFFF =? 0).

(** A record as the reader delivers it once the strings are unpacked:
    a 0-based position that leaves room for the 1-based one, at least
    the reference allele, as many alleles as announced, all of them
    text. *)
Definition valid_record (bb : bcf1_t) : Prop :=
  0 <= pos bb < 2 ^ 31 - 1 /\
  1 <= n_allele bb /\
  n_allele bb = Z.of_nat (length (d_allele (d bb))) /\
  Forall (fun a => utf8_valid a = true) (d_allele (d bb)).

(** The fields of a [bcf1_t] that the variant-level accessors read. *)
Definition site_fields (b : bcf1_t)
    : Z * Z * Z * Z * string * list string * list Z :=
  (rid b, pos b, qual b, n_allele b, d_id (d b), d_allele (d b), d_flt (d b)).

(** [c] does not occur in [s]. *)
Fixpoint free_of (c : ascii) (s : string) : bool :=
  match s with
  | EmptyString => true
  | String a s' => negb (Ascii.eqb a c) && free_of c s'
  end.

(** The number of places where a sequence of values changes. *)
Fixpoint changes (xs : list Z) : nat :=
  match xs with
  | x :: (y :: _) as r => ((if Z.eqb x y then 0 else 1) + changes r)%nat
  | _ => 0%nat
  end.

Section runs.
Context {lib : Htslib}.

(** The value of the [PASS] cache of the file at [l]. *)
Definition PASS_at (l : loc) (σ : gmap loc VCFFile.t) : option Z :=
  VCFFile.PASS <$> σ !! l.

(** Reading [FILTER] on a sequence of records, one after the other:
    the stores in between. *)
Fixpoint FILTER_run (rs : list Record.t) (σ : gmap loc VCFFile.t)
    : list (gmap loc VCFFile.t) :=
  match rs with
  | [] => []
  | r :: rs' => let σ' := snd (Record.FILTER r σ) in σ' :: FILTER_run rs' σ'
  end.

Definition set_lazy (self : VCFFile.t) (v : bool) : VCFFile.t :=
  {| VCFFile.hts := VCFFile.hts self; VCFFile.hdr := VCFFile.hdr self;
     VCFFile.idx := VCFFile.idx self; VCFFile.hidx := VCFFile.hidx self;
     VCFFile.n_samples := VCFFile.n_samples self; VCFFile.PASS := VCFFile.PASS self;
     VCFFile.fname := VCFFile.fname self; VCFFile.lazy := v;
     VCFFile.samples := VCFFile.samples self;
     VCFFile._seqnames := VCFFile._seqnames self;
     VCFFile.format_types := VCFFile.format_types self |}.

(** The teardown order the specification asks for: index structures,
    then the header, then the stream. *)
Definition spec_rank (r : VCFFile.release) : nat :=
  match r with
  | VCFFile.tbx_destroy _ | VCFFile.hts_idx_destroy _ => 0%nat
  | VCFFile.bcf_hdr_destroy _ => 1%nat
  | VCFFile.hts_close _ => 2%nat
  | VCFFile.bcf_destroy _ => 3%nat
  end.

(** The order of the docstring of [__dealloc__]: header, stream, then
    index memory. *)
Definition doc_rank (r : VCFFile.release) : nat :=
  match r with
  | VCFFile.bcf_hdr_destroy _ => 0%nat
  | VCFFile.hts_close _ => 1%nat
  | VCFFile.tbx_destroy _ | VCFFile.hts_idx_destroy _ => 2%nat
  | VCFFile.bcf_destroy _ => 3%nat
  end.

Fixpoint ascending (ks : list nat) : bool :=
  match ks with
  | x :: (y :: _) as r => (x <=? y)%nat && ascending r
  | _ => true
  end.

Definition in_order (rank : VCFFile.release -> nat) (t : list VCFFile.release) : bool :=
  ascending (rank <$> t).
End runs.

(** ** A small instance of the environment

    UTF-8 as the preferred encoding, [repr] on strings that need no
    escape, a stream held in memory, a registry with one parser for
    [contig] lines and the default one.  [bcf_hdr_set_samples] follows
    the htslib documentation: 0 when every requested sample is in the
    header, otherwise the position (from 1) of the first one that is
    not. *)

Definition quote (s : string) : string := ("'" ++ s ++ "'")%string.

Definition utf8_runtime : PyRuntime :=
  {| ENC_decode := fun b => if utf8_valid b then Some b else None;
     ENC_encode := fun s => Some s;
     py_repr := quote |}.

Fixpoint first_missing (have : list string) (want : list string) (k : Z) : Z :=
  match want with
  | [] => 0
  | w :: want' =>
      if existsb (String.eqb w) have then first_missing have want' (k + 1) else k
  end.

Definition mem_set_samples (h : bcf_hdr_t) (names : string) (is_file : Z) : Z * bcf_hdr_t :=
  if String.eqb names "-" then (0, h)
  else
    let want := split_by "," 0 names in
    (first_missing (hdr_samples h) want 1,
     {| id_dict := id_dict h; ctg_dict := ctg_dict h;
        hdr_samples := filter (fun s => existsb (String.eqb s) want = true) (hdr_samples h);
        hrec := hrec h |}).

Definition empty_dec : bcf_dec_t :=
  {| d_id := ""; d_allele := []; d_flt := []; d_info := []; d_fmt := [] |}.

Definition empty_bcf1 : bcf1_t :=
  {| rid := 0; pos := 0; qual := 0; n_allele := 0; shared := ""; indiv := "";
     unpacked := 0; d := empty_dec |}.

Definition empty_hdr : bcf_hdr_t :=
  {| id_dict := []; ctg_dict := []; hdr_samples := []; hrec := [] |}.

Definition mem_htslib : Htslib :=
  {| htsFile := list bcf1_t;
     path_exists := fun _ => true;
     fd_exists := fun k => (0 <=? k) && (k <? 3);
     hts_open := fun _ _ => Some [];
     hts_format := fun _ => bcf;
     bcf_hdr_read := fun f => (Some empty_hdr, f);
     bcf_read := fun f _ => match f with
                            | [] => (-1, empty_bcf1, [])
                            | b :: f' => (0, b, f')
                            end;
     hts_set_threads := fun f _ => (0, f);
     bcf_hdr_set_samples := mem_set_samples;
     unpack_str := fun s => (s, split_by "," 0 s);
     unpack_flt := fun _ => [];
     unpack_info := fun _ => [];
     unpack_fmt := fun _ => [] |}.

Inductive demo_line :=
| GenericLine (key value : string)
| ContigLine (mapping : string)
| OtherLine (key mapping : string).

Definition demo_header : HeaderModel :=
  {| header_line := demo_line;
     HeaderLine := GenericLine;
     build_header_parsers :=
       <["contig" := fun _ m => Return (ContigLine m)]>
         (<["__default__" := fun k m => Return (OtherLine k m)]> ∅) |}.

(** A header with three filters, one contig, two samples and three
    header records, the last with a repeated sub-key. *)
Definition demo_hdr : bcf_hdr_t :=
  {| id_dict := ["PASS"; "q10"; "s50"];
     ctg_dict := ["chr1"];
     hdr_samples := ["A"; "B"];
     hrec :=
       [ {| hrec_type := BCF_HL_GEN; hrec_key := "fileformat";
            hrec_value := Some "VCFv4.2"; hrec_keys := []; hrec_vals := [] |};
         {| hrec_type := BCF_HL_FLT; hrec_key := "FILTER"; hrec_value := None;
            hrec_keys := ["ID"; "Description"];
            hrec_vals := ["PASS"; "All filters passed"] |};
         {| hrec_type := BCF_HL_CTG; hrec_key := "contig"; hrec_value := None;
            hrec_keys := ["ID"; "length"; "ID"];
            hrec_vals := ["chr1"; "1000"; "chrX"] |} ] |}.

(** The records still to be read from an in-memory stream. *)
Definition mem_stream (rs : list bcf1_t) : @htsFile mem_htslib := rs.

(** An open file on [demo_hdr] whose [PASS] cache holds [p], with the
    index pointers [i] and [hi]. *)
Definition demo_file_with (p : Z) (i : option tbx_t) (hi : option hts_idx_t)
    : VCFFile.t (lib := mem_htslib) :=
  {| VCFFile.hts := Some (mem_stream []); VCFFile.hdr := Some demo_hdr;
     VCFFile.idx := i; VCFFile.hidx := hi;
     VCFFile.n_samples := 2; VCFFile.PASS := p; VCFFile.fname := PyBytes "demo.bcf";
     VCFFile.lazy := false; VCFFile.samples := PyList [PyStr "A"; PyStr "B"];
     VCFFile._seqnames := []; VCFFile.format_types := [] |}.

Definition demo_file (p : Z) : VCFFile.t (lib := mem_htslib) := demo_file_with p None None.

Definition demo_store (p : Z) : gmap loc (VCFFile.t (lib := mem_htslib)) :=
  {[ 1%positive := demo_file p ]}.

(** An unpacked record at 0-based position 99 with the 32 bits [q] as
    quality and the filter ids [fl]. *)
Definition demo_bcf1 (q : Z) (fl : list Z) : bcf1_t :=
  {| rid := 0; pos := 99; qual := q; n_allele := 3; shared := ""; indiv := "";
     unpacked := 15;
     d := {| d_id := "rs1;rs2"; d_allele := ["A"; "C"; "G"]; d_flt := fl;
             d_info := []; d_fmt := [] |} |}.

Definition demo_record (q : Z) (fl : list Z) : Record.t :=
  {| Record.b := Some (demo_bcf1 q fl); Record.vcf := Some 1%positive |}.

(** * Further methods of the source *)

From Stdlib Require DecimalString.

(** An [int] written in decimal, as [%d] writes it. *)
Definition decimal (z : Z) : string := DecimalString.NilZero.string_of_int (Z.to_int z).

(** [Record.__dealloc__]: the buffer is released when the pointer is
    set, and the pointer is cleared. *)
Definition Record__dealloc__ {lib : Htslib} (self : Record.t)
    : list VCFFile.release * Record.t :=
  match Record.b self with
  | Some bb => ([VCFFile.bcf_destroy bb], {| Record.b := None; Record.vcf := Record.vcf self |})
  | None => ([], self)
  end.

(** [Record.__repr__]: ["Record(%s:%d %s/%s)" % (self.CHROM, self.POS,
    self.REF, ",".join(self.ALT))].  The accessors are read from left
    to right; [%s] takes a [str] as it is and [%d] writes an [int] in
    decimal. *)
Definition Record__repr__ {lib : Htslib} (self : Record.t) (σ : gmap loc VCFFile.t)
    : outcome pyval :=
  chrom ← Record.CHROM self σ;
  pos ← Record.POS self;
  ref ← Record.REF self;
  alt ← Record.ALT self;
  alts ← match alt with
         | PyList xs => py_join (PyStr ",") xs
         | _ => Raise (TypeError "can only join an iterable")
         end;
  match chrom, pos, ref, alts with
  | PyStr c, PyInt p, PyStr r, PyStr a =>
      Return (PyStr ("Record(" ++ c ++ ":" ++ decimal p ++ " " ++ r ++ "/" ++ a ++ ")")%string)
  | _, _, _, _ => Raise (TypeError "%d format: a number is required")
  end.

(** Truth value of an object, for [threads or 1]. *)
Definition py_truthy (v : pyval) : bool :=
  match v with
  | PyNone => false
  | PyInt z => negb (z =? 0)
  | PyFloat q => negb (Z.land q 0x7FFFFFFF =? 0)
  | PyBytes s | PyStr s => negb (String.eqb s "")
  | PyList xs => match xs with [] => false | _ => true end
  end.

(** ** _ReaderImpl *)

Module _ReaderImpl.
Section defs.
Context {rt : PyRuntime} {lib : Htslib} {hm : HeaderModel}.

(** [path] and [tabix_path] are declared [str] (which admits [None]),
    [threads] is a C [int]. *)
Record t := {
  path : pyval;
  tabix_path : pyval;
  lazy : bool;
  threads : Z;
  _vcf_file : VCFFile.t;
  header : Header
}.

(** Storing into an attribute declared [str]. *)
Definition as_str_attr (v : pyval) : outcome pyval :=
  match v with
  | PyStr _ | PyNone => Return v
  | _ => Raise (TypeError "Expected str")
  end.

(** [__init__]: the outcome carries what was written to [stderr]
    while the file was opened. *)
Definition __init__ (fname tabix_path : pyval) (lazy : bool) (samples threads : pyval)
    : outcome (list string * t) :=
  let fname :=
    if py_eq fname (PyBytes "-") || py_eq fname (PyStr "-")
    then PyBytes "/dev/stdin" else fname in
  fname ← to_bytes fname;
  path ← (p ← from_bytes fname; as_str_attr p);
  tabix_path ← (p ← from_bytes tabix_path; as_str_attr p);
  threads_ ← as_c_int (if py_truthy threads then threads else PyInt 1);
  '(err, vcf_file) ← VCFFile.__init__ fname (PyBytes "rb") lazy samples threads;
  header ← VCFFile.load_header vcf_file;
  Return (err, {| path := path; tabix_path := tabix_path; lazy := lazy;
                  threads := threads_; _vcf_file := vcf_file; header := header |}).

(** [__iter__] hands out the file itself. *)
Definition __iter__ (self : t) : VCFFile.t := _vcf_file self.

(** The [samples] property. *)
Definition samples (self : t) : pyval := VCFFile.samples (_vcf_file self).
End defs.
End _ReaderImpl.

(** ** Notions used by the further statements *)

(** The keys of a sequence in the order in which they are first seen,
    those of [seen] left out. *)
Fixpoint first_seen (seen ks : list string) : list string :=
  match ks with
  | [] => []
  | k :: ks' =>
      if bool_decide (k ∈ seen) then first_seen seen ks'
      else k :: first_seen (k :: seen) ks'
  end.

(** The value paired with [k] at its first and at its last occurrence
    in a sequence of pairs. *)
Fixpoint assoc_first (k : string) (m : list (string * string)) : option string :=
  match m with
  | [] => None
  | (k', v) :: m' => if String.eqb k' k then Some v else assoc_first k m'
  end.

Fixpoint assoc_last (k : string) (m : list (string * string)) : option string :=
  match m with
  | [] => None
  | (k', v) :: m' =>
      match assoc_last k m' with
      | Some w => Some w
      | None => if String.eqb k' k then Some v else None
      end
  end.

(** Decoding one key with its value, as [mapping_of] does at an index. *)
Definition decode_pair {rt : PyRuntime} (kv : string * string) : outcome (string * string) :=
  k ← from_cstr (fst kv); v ← from_cstr (snd kv); Return (k, v).

(** How often [c] occurs in [s]. *)
Fixpoint count_char (c : ascii) (s : string) : nat :=
  match s with
  | EmptyString => 0%nat
  | String a s' => ((if Ascii.eqb a c then 1 else 0) + count_char c s')%nat
  end.

(** The [PASS] cache of a file is sound when it is empty or holds an id
    that the filter dictionary of the file's header names [PASS]. *)
Definition cache_sound {lib : Htslib} (f : VCFFile.t) : Prop :=
  VCFFile.PASS f = -1 \/
  exists h, VCFFile.hdr f = Some h /\
            bcf_hdr_int2id h BCF_DT_ID (VCFFile.PASS f) = Return "PASS".

(** ** Further instances *)

(** An htslib over in-memory streams whose answers are chosen: whether
    paths exist, whether they can be opened, the format of a stream and
    the header that is read from it. *)
Definition stub_htslib (there opens : bool) (fmt : htsExactFormat) (h : bcf_hdr_t) : Htslib :=
  {| htsFile := list bcf1_t;
     path_exists := fun _ => there;
     fd_exists := fun k => (0 <=? k) && (k <? 3);
     hts_open := fun _ _ => if opens then Some [] else None;
     hts_format := fun _ => fmt;
     bcf_hdr_read := fun f => (Some h, f);
     bcf_read := fun f _ => match f with
                            | [] => (-1, empty_bcf1, [])
                            | b :: f' => (0, b, f')
                            end;
     hts_set_threads := fun f _ => (0, f);
     bcf_hdr_set_samples := mem_set_samples;
     unpack_str := fun s => (s, split_by "," 0 s);
     unpack_flt := fun _ => [];
     unpack_info := fun _ => [];
     unpack_fmt := fun _ => [] |}.

(** What [VCFFile.__init__] makes of a BCF file with the header
    [demo_hdr], opened eagerly with all samples. *)
Definition opened_demo : VCFFile.t (lib := stub_htslib true true bcf demo_hdr) :=
  {| VCFFile.hts := Some ([] : @htsFile (stub_htslib true true bcf demo_hdr));
     VCFFile.hdr := Some demo_hdr;
     VCFFile.idx := None; VCFFile.hidx := None;
     VCFFile.n_samples := 2; VCFFile.PASS := -1; VCFFile.fname := PyBytes "demo.bcf";
     VCFFile.lazy := false; VCFFile.samples := PyList [PyStr "A"; PyStr "B"];
     VCFFile._seqnames := []; VCFFile.format_types := [] |}.

(** The [contig] entry of [demo_hdr]. *)
Definition contig_hrec : bcf_hrec_t :=
  {| hrec_type := BCF_HL_CTG; hrec_key := "contig"; hrec_value := None;
     hrec_keys := ["ID"; "length"; "ID"];
     hrec_vals := ["chr1"; "1000"; "chrX"] |}.

(** A factory whose registry knows [contig] and has no fallback. *)
Definition no_default_factory : HeaderLineFactory.t (hm := demo_header) :=
  {| HeaderLineFactory.hdr := Some demo_hdr;
     HeaderLineFactory.warning_helper := mkWarningHelper;
     HeaderLineFactory.parsers := {[ "contig" := fun _ m => Return (ContigLine m) ]} |}.

(** A record whose second alternative allele is the single byte
    [0xFF], which is not UTF-8. *)
Definition bad_alt_bcf1 : bcf1_t :=
  {| rid := 0; pos := 99; qual := 0; n_allele := 3; shared := ""; indiv := "";
     unpacked := 15;
     d := {| d_id := "."; d_allele := ["A"; "C"; String (ascii_of_nat 255) EmptyString];
             d_flt := []; d_info := []; d_fmt := [] |} |}.

(** The file of [demo_store] with one record left to read. *)
Definition one_left : gmap loc (VCFFile.t (lib := mem_htslib)) :=
  {[ 1%positive := VCFFile.set_hts (demo_file (-1)) (Some (mem_stream [demo_bcf1 0 [0]])) ]}.

(** ** Files the source can build *)

(** The source assigns [hts], [hdr], [n_samples], [samples], [PASS],
    [fname], [lazy], [_seqnames] and [format_types]; [idx] and [hidx]
    are declared (lines 130 and 131) and read in [__dealloc__], and no
    line assigns them.  The files the source can build are those reached
    from a fresh instance by writes that leave [idx] and [hidx] as they
    are. *)
Inductive built {lib : Htslib} : VCFFile.t -> Prop :=
| built_allocated : built VCFFile.allocated
| built_write (f f' : VCFFile.t) :
    built f ->
    VCFFile.idx f' = VCFFile.idx f -> VCFFile.hidx f' = VCFFile.hidx f ->
    built f'.

(** A record whose id is the single byte [0xFF], which is not UTF-8. *)
Definition bad_id_bcf1 : bcf1_t :=
  {| rid := 0; pos := 99; qual := 0; n_allele := 1; shared := ""; indiv := "";
     unpacked := 15;
     d := {| d_id := String (ascii_of_nat 255) EmptyString; d_allele := ["A"];
             d_flt := []; d_info := []; d_fmt := [] |} |}.

(** * Properties *)

(** ** The outcome monad and list traversals *)

Lemma bind_Return {A B} (a : A) (f : A -> outcome B) : (Return a ≫= f) = f a.
Proof. reflexivity. Qed.

Lemma fmap_Return {A B} (a : A) (f : A -> B) : f <$> Return a = Return (f a).
Proof. reflexivity. Qed.

Lemma mapM_fmap {A B C} (h : A -> B) (f : B -> outcome C) (l : list A) :
  mapM f (h <$> l) = mapM (fun a => f (h a)) l.
Proof.
  induction l as [|a l IH]; [reflexivity|].
  change (mapM f (h <$> a :: l))
    with (b ← f (h a); bs ← mapM f (h <$> l); Return (b :: bs)).
  rewrite IH. reflexivity.
Qed.

Lemma mapM_Return {A B} (h : A -> B) (l : list A) :
  mapM (fun a => Return (h a)) l = Return (h <$> l).
Proof.
  induction l as [|a l IH]; [reflexivity|].
  cbn [mapM]. rewrite IH. reflexivity.
Qed.

Lemma mapM_post {A B C} (f : A -> outcome B) (h : B -> C) (l : list A) :
  mapM (fun a => h <$> f a) l = (fun bs : list B => h <$> bs) <$> mapM f l.
Proof.
  induction l as [|a l IH]; [reflexivity|].
  cbn [mapM]. rewrite IH. destruct (f a); [|reflexivity].
  destruct (mapM f l); reflexivity.
Qed.

(** [mapM] succeeds exactly when every element does, with the results
    in the order of the elements. *)
Lemma mapM_Forall2 {A B} (f : A -> outcome B) (l : list A) (r : list B) :
  mapM f l = Return r <-> Forall2 (fun a b => f a = Return b) l r.
Proof.
  revert r. induction l as [|a l IH]; simpl; intros r; split; intros E.
  - inversion E. constructor.
  - inversion E. reflexivity.
  - destruct (f a) as [b|] eqn:Ea; simpl in E; [|discriminate].
    destruct (mapM f l) as [bs|] eqn:El; simpl in E; [|discriminate].
    inversion E. constructor; [assumption|]. apply IH. reflexivity.
  - inversion E as [|? b ? bs Ea El]; subst. rewrite Ea. simpl.
    apply IH in El. rewrite El. reflexivity.
Qed.

Lemma c_index_app {A} (pre suf : list A) (a : A) :
  c_index (pre ++ a :: suf) (Z.of_nat (length pre)) = Return a.
Proof.
  unfold c_index.
  destruct (Z.ltb_spec (Z.of_nat (length pre)) 0) as [?|_]; [lia|].
  rewrite Nat2Z.id, list_lookup_middle by reflexivity. reflexivity.
Qed.

Lemma c_index_head {A} (a : A) (l : list A) : c_index (a :: l) 0 = Return a.
Proof. reflexivity. Qed.

(** A comprehension that indexes a C array over a range is a traversal
    of the corresponding part of the list. *)
Lemma mapM_index_from {A B} (g : A -> outcome B) (suf pre : list A) :
  mapM (fun i => x ← c_index (pre ++ suf) i; g x)
       ((fun k => Z.of_nat (length pre) + Z.of_nat k) <$> seq 0 (length suf))
  = mapM g suf.
Proof.
  revert pre. induction suf as [|a suf IH]; intros pre; [reflexivity|].
  cbn [length seq fmap list_fmap mapM].
  rewrite Z.add_0_r, c_index_app, bind_Return.
  rewrite <- fmap_S_seq, <- list_fmap_compose.
  specialize (IH (pre ++ [a])).
  rewrite <- app_assoc in IH. cbn [app] in IH.
  erewrite list_fmap_ext; [rewrite IH; reflexivity|].
  intros _ k _. cbn. rewrite length_app. cbn [length]. lia.
Qed.

Lemma mapM_py_range {A B} (g : A -> outcome B) (pre suf : list A) :
  mapM (fun i => x ← c_index (pre ++ suf) i; g x)
       (py_range (Z.of_nat (length pre)) (Z.of_nat (length (pre ++ suf))))
  = mapM g suf.
Proof.
  unfold py_range. rewrite length_app.
  replace (Z.to_nat (Z.of_nat (length pre + length suf) - Z.of_nat (length pre)))
    with (length suf) by lia.
  apply mapM_index_from.
Qed.

Lemma mapM_py_range_0 {A B} (g : A -> outcome B) (l : list A) :
  mapM (fun i => x ← c_index l i; g x) (py_range 0 (Z.of_nat (length l))) = mapM g l.
Proof. apply (mapM_py_range g [] l). Qed.

(** ** Splitting at a one-character separator *)

Lemma split_by_nonempty (sep : string) (k : nat) (s : string) : split_by sep k s <> [].
Proof.
  revert k. induction s as [|a s IH]; intros k; cbn [split_by]; [discriminate|].
  destruct k; [|apply IH].
  destruct (String.prefix sep (String a s)); [discriminate|].
  destruct (split_by sep 0 s); discriminate.
Qed.

Lemma split_by_char_cons (c a : ascii) (s : string) :
  split_by (String c EmptyString) 0 (String a s) =
  if Ascii.eqb a c then EmptyString :: split_by (String c EmptyString) 0 s
  else match split_by (String c EmptyString) 0 s with
       | w :: ws => String a w :: ws
       | [] => [String a EmptyString]
       end.
Proof.
  cbn [split_by String.prefix String.length Nat.pred].
  destruct (ascii_dec c a) as [->|N].
  - rewrite Ascii.eqb_refl. destruct s; reflexivity.
  - destruct (Ascii.eqb_spec a c) as [->|_]; [contradiction|reflexivity].
Qed.

Lemma concat_cons_nonempty (sep x : string) (xs : list string) :
  xs <> [] -> String.concat sep (x :: xs) = (x ++ sep ++ String.concat sep xs)%string.
Proof. destruct xs; [contradiction|reflexivity]. Qed.

(** Joining the pieces with the separator gives the string back. *)
Lemma split_by_char_join (c : ascii) (s : string) :
  String.concat (String c EmptyString) (split_by (String c EmptyString) 0 s) = s.
Proof.
  induction s as [|a s IH]; [reflexivity|].
  rewrite split_by_char_cons.
  pose proof (split_by_nonempty (String c EmptyString) 0 s) as NE.
  destruct (Ascii.eqb_spec a c) as [->|_].
  - rewrite concat_cons_nonempty by assumption. cbn. rewrite IH. reflexivity.
  - destruct (split_by (String c EmptyString) 0 s) as [|w ws]; [contradiction|].
    destruct ws as [|w' ws].
    + cbn [String.concat] in *. rewrite IH. reflexivity.
    + rewrite concat_cons_nonempty by discriminate.
      rewrite concat_cons_nonempty in IH by discriminate.
      rewrite <- IH. reflexivity.
Qed.

(** No piece contains the separator. *)
Lemma split_by_char_free (c : ascii) (s : string) :
  Forall (fun w => free_of c w = true) (split_by (String c EmptyString) 0 s).
Proof.
  induction s as [|a s IH]; [repeat constructor|].
  rewrite split_by_char_cons.
  destruct (Ascii.eqb_spec a c) as [->|N].
  - constructor; [reflexivity|assumption].
  - destruct (split_by (String c EmptyString) 0 s) as [|w ws].
    + repeat constructor. cbn. destruct (Ascii.eqb_spec a c); [contradiction|reflexivity].
    + inversion IH; subst. constructor; [|assumption].
      cbn. destruct (Ascii.eqb_spec a c); [contradiction|assumption].
Qed.

Section properties.
Context {rt : PyRuntime} {lib : Htslib} {hm : HeaderModel}.

(** ** FILTER *)

Lemma mapM_as_bytes (names : list string) :
  mapM as_bytes (PyBytes <$> names) = Return names.
Proof.
  rewrite mapM_fmap. cbn [as_bytes].
  rewrite (mapM_Return (fun a => a)), list_fmap_id. reflexivity.
Qed.

(** The closing lines of [FILTER] on a non-empty filter array: the
    names, joined by [;] into one [bytes] object. *)
Lemma FILTER_rest_join (bb : bcf1_t) (f : VCFFile.t) (h : bcf_hdr_t) (names : list string) :
  VCFFile.hdr f = Some h ->
  d_flt (d bb) <> [] ->
  mapM (bcf_hdr_int2id h BCF_DT_ID) (d_flt (d bb)) = Return names ->
  Record.FILTER_rest bb (Return f) = Return (PyBytes (String.concat ";" names)).
Proof.
  intros Hh NE Hn. unfold Record.FILTER_rest, n_flt.
  destruct (d_flt (d bb)) as [|i fl] eqn:E; [contradiction|].
  replace (Z.of_nat (length (i :: fl)) =? 0) with false
    by (symmetry; apply Z.eqb_neq; cbn [length]; lia).
  rewrite bind_Return, Hh. cbn [from_option]. rewrite bind_Return.
  rewrite mapM_py_range_0, mapM_post, Hn, fmap_Return, bind_Return.
  unfold py_join. rewrite mapM_as_bytes. reflexivity.
Qed.

Lemma FILTER_rest_empty (bb : bcf1_t) (file : outcome VCFFile.t) :
  d_flt (d bb) = [] -> Record.FILTER_rest bb file = Return (PyList []).
Proof. intros E. unfold Record.FILTER_rest, n_flt. rewrite E. reflexivity. Qed.

Lemma the_vcf_found (r : Record.t) (σ : gmap loc VCFFile.t) l f :
  Record.vcf r = Some l -> σ !! l = Some f -> Record.the_vcf r σ = Return f.
Proof.
  intros Hv Hs. unfold Record.the_vcf. rewrite Hv. cbn [from_option].
  rewrite bind_Return, Hs. reflexivity.
Qed.

(** Entering the branch for a single filter of a record of the file
    [f] at [l]. *)
Ltac open_FILTER_single Hb Hv Hs E :=
  unfold Record.FILTER, Record.the_b; rewrite Hb; cbn [from_option];
  unfold n_flt; rewrite E;
  match goal with
  | |- context [Z.of_nat (length [?i]) =? 1] =>
      change (Z.of_nat (length [i]) =? 1) with true
  end;
  cbn beta iota; rewrite Hv; cbn [from_option];
  rewrite !bind_Return, Hs; cbn [from_option]; rewrite !bind_Return.

(** No filter recorded: the empty list, whatever the cache holds. *)
Lemma FILTER_none (r : Record.t) (σ : gmap loc VCFFile.t) bb :
  Record.b r = Some bb ->
  d_flt (d bb) = [] ->
  Record.FILTER r σ = (Return (PyList []), σ).
Proof.
  intros Hb E. unfold Record.FILTER, Record.the_b. rewrite Hb. cbn [from_option].
  unfold n_flt. rewrite E. cbn [length Z.of_nat Z.eqb].
  rewrite FILTER_rest_empty by assumption. reflexivity.
Qed.

(** One filter, equal to the cached [PASS] id: the empty list. *)
Lemma FILTER_cached_PASS (r : Record.t) (σ : gmap loc VCFFile.t) bb l f :
  Record.b r = Some bb -> Record.vcf r = Some l -> σ !! l = Some f ->
  VCFFile.PASS f <> -1 ->
  d_flt (d bb) = [VCFFile.PASS f] ->
  Record.FILTER r σ = (Return (PyList []), σ).
Proof.
  intros Hb Hv Hs Hc E. open_FILTER_single Hb Hv Hs E.
  apply Z.eqb_neq in Hc. rewrite Hc. cbn [negb].
  rewrite c_index_head. cbn beta iota. rewrite Z.eqb_refl. reflexivity.
Qed.

(** Two filters or more: one [bytes] object, not a list. *)
Lemma FILTER_several (r : Record.t) (σ : gmap loc VCFFile.t) bb l f h names :
  Record.b r = Some bb -> Record.vcf r = Some l -> σ !! l = Some f ->
  VCFFile.hdr f = Some h ->
  (2 <= length (d_flt (d bb)))%nat ->
  mapM (bcf_hdr_int2id h BCF_DT_ID) (d_flt (d bb)) = Return names ->
  Record.FILTER r σ = (Return (PyBytes (String.concat ";" names)), σ).
Proof.
  intros Hb Hv Hs Hh Hl Hn.
  unfold Record.FILTER, Record.the_b. rewrite Hb. cbn [from_option].
  assert (d_flt (d bb) <> []) as NE by (intros E; rewrite E in Hl; cbn in Hl; lia).
  rewrite (the_vcf_found r σ l f Hv Hs).
  rewrite (FILTER_rest_join bb f h names) by assumption.
  replace (n_flt (d bb) =? 1) with false; [reflexivity|].
  symmetry. apply Z.eqb_neq. unfold n_flt. lia.
Qed.

(** C1 (the row the accessor does not follow): with the [PASS] id
    cached, a record with exactly one filter whose id is not the
    cached one does not get a one-element list.  The first test fails
    without returning, control reaches the closing [join], and the
    result is the bare name as a [bytes] object, the shape of the
    several-filters row.  The docstring of the accessor announces a
    list of strings. *)
Theorem FILTER_cached_single_other_is_bare_bytes
    (r : Record.t) (σ : gmap loc VCFFile.t) bb l f h i name :
  Record.b r = Some bb -> Record.vcf r = Some l -> σ !! l = Some f ->
  VCFFile.hdr f = Some h ->
  VCFFile.PASS f <> -1 ->
  d_flt (d bb) = [i] ->
  i <> VCFFile.PASS f ->
  bcf_hdr_int2id h BCF_DT_ID i = Return name ->
  Record.FILTER r σ = (Return (PyBytes name), σ).
Proof.
  intros Hb Hv Hs Hh Hc E Hi Hn. open_FILTER_single Hb Hv Hs E.
  apply Z.eqb_neq in Hc. rewrite Hc. cbn [negb].
  rewrite c_index_head. cbn beta iota.
  apply Z.eqb_neq in Hi. rewrite Hi.
  rewrite (FILTER_rest_join bb f h [name]); [reflexivity|assumption|..].
  - rewrite E. discriminate.
  - rewrite E. cbn [mapM]. rewrite Hn. reflexivity.
Qed.

(** C2 (what the accessor does on a single filter while the cache is
    empty): the id is resolved through the header dictionary; on the
    name [PASS] the id is stored in the cache and the result is the
    list holding the string [PASS], not the empty list; on any other
    name the result is the bare name as [bytes], not a list, and the
    store is untouched. *)
Theorem FILTER_uncached_single
    (r : Record.t) (σ : gmap loc VCFFile.t) bb l f h i name :
  Record.b r = Some bb -> Record.vcf r = Some l -> σ !! l = Some f ->
  VCFFile.hdr f = Some h ->
  VCFFile.PASS f = -1 ->
  d_flt (d bb) = [i] ->
  bcf_hdr_int2id h BCF_DT_ID i = Return name ->
  Record.FILTER r σ =
    if String.eqb name "PASS"
    then (Return (PyList [PyStr "PASS"]), <[l := VCFFile.set_PASS f i]> σ)
    else (Return (PyBytes name), σ).
Proof.
  intros Hb Hv Hs Hh Hc E Hn. open_FILTER_single Hb Hv Hs E.
  rewrite Hc. cbn [Z.eqb Pos.eqb negb].
  rewrite Hh. cbn [from_option]. rewrite bind_Return, c_index_head, bind_Return, Hn.
  rewrite bind_Return. cbn [py_eq]. reflexivity.
Qed.

(** *** The cache is written at most once *)

(** One call either leaves the cache of a file as it is or fills an
    empty cache with an id of the dictionary. *)
Lemma FILTER_PASS_step (r : Record.t) (σ : gmap loc VCFFile.t) (l : loc) (p : Z) :
  PASS_at l σ = Some p ->
  exists p', PASS_at l (snd (Record.FILTER r σ)) = Some p' /\
             (p' = p \/ (p = -1 /\ 0 <= p')).
Proof.
  intros Hp. unfold Record.FILTER.
  destruct (Record.the_b r) as [bb|e]; cbn [snd]; [|eauto].
  destruct (n_flt (d bb) =? 1); [|eauto].
  destruct (from_option Segfault (Record.vcf r) ≫= _) as [[l0 f]|e] eqn:Pre;
    cbn [snd]; [|eauto].
  destruct (negb (VCFFile.PASS f =? -1)) eqn:Hc.
  { destruct (c_index (d_flt (d bb)) 0) as [f0|]; [|eauto].
    destruct (f0 =? VCFFile.PASS f); eauto. }
  destruct (from_option Segfault (VCFFile.hdr f) ≫= _) as [[f0 v]|] eqn:Res; [|eauto].
  destruct (py_eq (PyBytes v) (PyBytes "PASS")); [|eauto]. cbn [snd].
  (* the id was found in the dictionary, hence it is not negative *)
  assert (0 <= f0) as Hf0.
  { destruct (VCFFile.hdr f) as [h|]; [|discriminate].
    cbn [from_option] in Res. rewrite bind_Return in Res.
    destruct (c_index (d_flt (d bb)) 0) as [f0'|]; [|discriminate].
    rewrite bind_Return in Res.
    destruct (bcf_hdr_int2id h BCF_DT_ID f0') as [v'|] eqn:Hv; [|discriminate].
    inversion Res; subst. unfold bcf_hdr_int2id, c_index in Hv.
    destruct (Z.ltb_spec f0 0); [discriminate|assumption]. }
  (* the file it was read from is the one of the record *)
  assert (σ !! l0 = Some f) as Hl0.
  { destruct (Record.vcf r) as [l1|]; [|discriminate].
    cbn [from_option] in Pre. rewrite bind_Return in Pre.
    destruct (σ !! l1) eqn:E1; [|discriminate]. inversion Pre; subst. assumption. }
  unfold PASS_at in *. destruct (decide (l0 = l)) as [->|N].
  - rewrite lookup_insert_eq. cbn. eexists; split; [reflexivity|].
    rewrite Hl0 in Hp. cbn in Hp. inversion Hp; subst.
    right. split; [|assumption].
    apply negb_false_iff, Z.eqb_eq in Hc. assumption.
  - rewrite lookup_insert_ne by assumption. eauto.
Qed.

Lemma changes_cons (p p' : Z) (ps : list Z) :
  changes (p :: p' :: ps) = ((if Z.eqb p p' then 0 else 1) + changes (p' :: ps))%nat.
Proof. reflexivity. Qed.

(** Over any sequence of [FILTER] reads, on any records of any files,
    the cache of a file changes at most once, and not at all once it
    holds an id. *)
Lemma FILTER_PASS_written_once (rs : list Record.t) (σ : gmap loc VCFFile.t) (l : loc) (p : Z) :
  PASS_at l σ = Some p ->
  exists ps, PASS_at l <$> FILTER_run rs σ = Some <$> ps /\
             (changes (p :: ps) <= 1)%nat /\
             (p <> -1 -> changes (p :: ps) = 0%nat).
Proof.
  revert σ p. induction rs as [|r rs IH]; intros σ p Hp.
  - exists []. cbn. split; [reflexivity|]. split; [lia|reflexivity].
  - destruct (FILTER_PASS_step r σ l p Hp) as (p' & Hp' & Hstep).
    destruct (IH _ _ Hp') as (ps & Hps & Hle & Hzero).
    exists (p' :: ps). cbn [FILTER_run fmap list_fmap].
    split; [rewrite Hp'; f_equal; exact Hps|].
    rewrite changes_cons.
    destruct Hstep as [->|[-> Hnn]].
    + rewrite Z.eqb_refl. split; [lia|]. intros N. rewrite (Hzero N). reflexivity.
    + assert (p' <> -1) as N by lia. rewrite (Hzero N).
      destruct (-1 =? p'); split; try lia; intros C; contradiction.
Qed.

(** ** Opening a file *)

Ltac case_scrutinee :=
  match goal with
  | |- context [match ?x with _ => _ end] =>
      lazymatch x with
      | context [match _ with _ => _ end] => fail
      | _ => destruct x eqn:?
      end
  end.

(** [set_samples] touches the header only. *)
Lemma set_samples_keeps (self : VCFFile.t) (samples : pyval) :
  VCFFile.idx (snd (VCFFile.set_samples self samples)) = VCFFile.idx self /\
  VCFFile.hidx (snd (VCFFile.set_samples self samples)) = VCFFile.hidx self /\
  VCFFile.PASS (snd (VCFFile.set_samples self samples)) = VCFFile.PASS self.
Proof.
  unfold VCFFile.set_samples.
  repeat case_scrutinee; cbn; repeat split; reflexivity.
Qed.

(** [set_threads] touches the stream only. *)
Lemma set_threads_keeps (self : VCFFile.t) (n : pyval) :
  VCFFile.idx (snd (VCFFile.set_threads self n)) = VCFFile.idx self /\
  VCFFile.hidx (snd (VCFFile.set_threads self n)) = VCFFile.hidx self /\
  VCFFile.PASS (snd (VCFFile.set_threads self n)) = VCFFile.PASS self /\
  VCFFile.lazy (snd (VCFFile.set_threads self n)) = VCFFile.lazy self.
Proof.
  unfold VCFFile.set_threads.
  repeat case_scrutinee; cbn; repeat split; reflexivity.
Qed.

(** A file that [__init__] has opened starts with an empty [PASS]
    cache, no index structure and the requested decoding mode. *)
Lemma init_state (fname mode : pyval) (lazy : bool) (samples threads : pyval) w self :
  VCFFile.__init__ fname mode lazy samples threads = Return (w, self) ->
  VCFFile.PASS self = -1 /\ VCFFile.idx self = None /\ VCFFile.hidx self = None /\
  VCFFile.lazy self = lazy.
Proof.
  unfold VCFFile.__init__, mbind, outcome_bind.
  repeat case_scrutinee; try discriminate;
    intros E; inversion E; subst;
    repeat match goal with
           | H : Return _ = Return _ |- _ => inversion H; subst; clear H
           | H : VCFFile.set_samples ?a ?s = (_, _) |- _ =>
               let K := fresh "K" in
               pose proof (set_samples_keeps a s) as K; rewrite H in K;
               cbn in K; destruct K as (? & ? & ?); clear H
           | H : VCFFile.set_threads ?a ?k = (_, _) |- _ =>
               let K := fresh "K" in
               pose proof (set_threads_keeps a k) as K; rewrite H in K;
               cbn in K; destruct K as (? & ? & ? & ?); clear H
           end;
    cbn; repeat split; congruence.
Qed.

(** ** Teardown *)

Lemma dealloc_trace (self : VCFFile.t) :
  fst (VCFFile.__dealloc__ self) =
    (VCFFile.bcf_hdr_destroy <$> option_list (VCFFile.hdr self)) ++
    (VCFFile.hts_close <$> option_list (VCFFile.hts self)) ++
    (VCFFile.tbx_destroy <$> option_list (VCFFile.idx self)) ++
    (VCFFile.hts_idx_destroy <$> option_list (VCFFile.hidx self)).
Proof.
  unfold VCFFile.__dealloc__.
  destruct self as [s h i hi ? ? ? ? ? ? ?]; cbn.
  destruct h, s, i, hi; reflexivity.
Qed.

Lemma dealloc_clears (self : VCFFile.t) :
  VCFFile.hdr (snd (VCFFile.__dealloc__ self)) = None /\
  VCFFile.hts (snd (VCFFile.__dealloc__ self)) = None /\
  VCFFile.idx (snd (VCFFile.__dealloc__ self)) = VCFFile.idx self /\
  VCFFile.hidx (snd (VCFFile.__dealloc__ self)) = VCFFile.hidx self.
Proof.
  unfold VCFFile.__dealloc__.
  destruct self as [s h i hi ? ? ? ? ? ? ?]; cbn.
  destruct h, s; cbn; repeat split; reflexivity.
Qed.

(** The index pointers are not cleared: a second teardown would hand
    the same index structures to their destructors again. *)
Lemma dealloc_again_indexes (self : VCFFile.t) :
  fst (VCFFile.__dealloc__ (snd (VCFFile.__dealloc__ self))) =
    (VCFFile.tbx_destroy <$> option_list (VCFFile.idx self)) ++
    (VCFFile.hts_idx_destroy <$> option_list (VCFFile.hidx self)).
Proof.
  rewrite dealloc_trace.
  destruct (dealloc_clears self) as (-> & -> & -> & ->). reflexivity.
Qed.

(** On any state, also one with an index pointer set, which the source
    does not build: [__dealloc__] releases, in this order, the header
    structure, the stream, then the index structures, each one only
    when its pointer is set; it clears the header and stream pointers
    and leaves the index pointers, so that running it again releases
    the index structures again and nothing else. *)
Lemma dealloc_header_stream_then_indexes (self : VCFFile.t) :
  fst (VCFFile.__dealloc__ self) =
    (VCFFile.bcf_hdr_destroy <$> option_list (VCFFile.hdr self)) ++
    (VCFFile.hts_close <$> option_list (VCFFile.hts self)) ++
    (VCFFile.tbx_destroy <$> option_list (VCFFile.idx self)) ++
    (VCFFile.hts_idx_destroy <$> option_list (VCFFile.hidx self)) /\
  in_order doc_rank (fst (VCFFile.__dealloc__ self)) = true /\
  VCFFile.hdr (snd (VCFFile.__dealloc__ self)) = None /\
  VCFFile.hts (snd (VCFFile.__dealloc__ self)) = None /\
  Forall (fun e => doc_rank e = 2%nat)
         (fst (VCFFile.__dealloc__ (snd (VCFFile.__dealloc__ self)))) /\
  snd (VCFFile.__dealloc__ (snd (VCFFile.__dealloc__ self)))
    = snd (VCFFile.__dealloc__ self).
Proof.
  split; [apply dealloc_trace|].
  split.
  { rewrite dealloc_trace.
    destruct (VCFFile.hdr self), (VCFFile.hts self), (VCFFile.idx self),
             (VCFFile.hidx self); reflexivity. }
  destruct (dealloc_clears self) as (Hh & Hs & _ & _).
  split; [assumption|]. split; [assumption|]. split.
  - rewrite dealloc_again_indexes.
    destruct (VCFFile.idx self), (VCFFile.hidx self); repeat constructor.
  - generalize dependent (snd (VCFFile.__dealloc__ self)).
    intros self' Hh Hs. unfold VCFFile.__dealloc__. rewrite Hh, Hs. reflexivity.
Qed.

(** *** Teardown of the files the source builds *)

Lemma built_no_index (self : VCFFile.t) :
  built self <-> VCFFile.idx self = None /\ VCFFile.hidx self = None.
Proof.
  split.
  - induction 1 as [|f f' _ [IHi IHh] Hi Hh]; [split; reflexivity|].
    split; congruence.
  - intros [Hi Hh]. apply (built_write VCFFile.allocated); [constructor|exact Hi|exact Hh].
Qed.

(** What [__init__] returns is such a file, and [set_samples],
    [set_threads] and [__dealloc__] keep a file such. *)
Lemma init_built (fname mode : pyval) (lazy : bool) (samples threads : pyval) w self :
  VCFFile.__init__ fname mode lazy samples threads = Return (w, self) -> built self.
Proof.
  intros E. apply init_state in E as (_ & Hi & Hh & _).
  apply built_no_index. split; assumption.
Qed.

Lemma methods_keep_built (self : VCFFile.t) (v : pyval) :
  built self ->
  built (snd (VCFFile.set_samples self v)) /\
  built (snd (VCFFile.set_threads self v)) /\
  built (snd (VCFFile.__dealloc__ self)).
Proof.
  intros B.
  destruct (set_samples_keeps self v) as (H1 & H2 & _).
  destruct (set_threads_keeps self v) as (H3 & H4 & _).
  destruct (dealloc_clears self) as (_ & _ & H5 & H6).
  repeat split; apply (built_write self); assumption.
Qed.

(** C3: on every file the source can build, teardown frees in the
    order of the specification (index structures, of which there are
    none, then the header structure, then the stream): the header is
    released and then the stream, each when it is held.  A second
    teardown releases nothing and leaves the object as it is. *)
Theorem dealloc_in_order_on_built_files (self : VCFFile.t) :
  built self ->
  fst (VCFFile.__dealloc__ self) =
    (VCFFile.bcf_hdr_destroy <$> option_list (VCFFile.hdr self)) ++
    (VCFFile.hts_close <$> option_list (VCFFile.hts self)) /\
  in_order spec_rank (fst (VCFFile.__dealloc__ self)) = true /\
  fst (VCFFile.__dealloc__ (snd (VCFFile.__dealloc__ self))) = [] /\
  snd (VCFFile.__dealloc__ (snd (VCFFile.__dealloc__ self)))
    = snd (VCFFile.__dealloc__ self).
Proof.
  intros B. apply built_no_index in B as [Hi Hh].
  assert (fst (VCFFile.__dealloc__ self) =
            (VCFFile.bcf_hdr_destroy <$> option_list (VCFFile.hdr self)) ++
            (VCFFile.hts_close <$> option_list (VCFFile.hts self))) as Ht.
  { rewrite dealloc_trace, Hi, Hh. cbn [option_list fmap list_fmap].
    rewrite !app_nil_r. reflexivity. }
  split; [exact Ht|]. split.
  - rewrite Ht. destruct (VCFFile.hdr self), (VCFFile.hts self); reflexivity.
  - split.
    + rewrite dealloc_again_indexes, Hi, Hh. reflexivity.
    + destruct (dealloc_clears self) as (Eh & Es & _ & _).
      generalize dependent (snd (VCFFile.__dealloc__ self)).
      intros self' Eh Es. unfold VCFFile.__dealloc__. rewrite Eh, Es. reflexivity.
Qed.

(** ** Sample selection *)

(** The comparison and the split of [set_samples] are between the
    [bytes] object [samples] and [str] literals: the comparison never
    holds and the split cannot be carried out. *)
Lemma bytes_ne_str (c s : string) : py_eq (PyBytes c) (PyStr s) = false.
Proof. reflexivity. Qed.

Lemma bytes_split_str (c s : string) :
  py_split (PyBytes c) (PyStr s) = Raise (TypeError "a bytes-like object is required").
Proof. reflexivity. Qed.

(** Whatever is asked for and whatever the native call answers,
    [set_samples] never writes its warning. *)
Lemma set_samples_never_warns (self : VCFFile.t) (samples : pyval) (w : list string) :
  fst (VCFFile.set_samples self samples) = Return w -> w = [].
Proof.
  unfold VCFFile.set_samples.
  destruct (_ ≫= _) as [[[sb c] h]|] eqn:Pre; [|discriminate].
  destruct (bcf_hdr_set_samples h c 0) as [ret h'].
  destruct (negb (ret >=? 0)); [discriminate|].
  assert (exists c', sb = PyBytes c') as [c' ->].
  { destruct sb; try (eexists; reflexivity).
    all: exfalso; revert Pre;
      match goal with |- context [?m ≫= _] => destruct m as [x|] end;
      cbn; try discriminate;
      destruct x; cbn; try discriminate;
      destruct (from_option Segfault (VCFFile.hdr self)); cbn; discriminate. }
  rewrite bytes_ne_str, bytes_split_str. cbn [negb].
  destruct (negb (ret =? 0)); cbn; [discriminate|].
  intros E. inversion E. reflexivity.
Qed.

(** C4 (where the warning is lost): for a list of names, once the
    native call answers with a positive value, whether smaller than
    the number of names or not, [set_samples] does not warn: it
    raises [TypeError] at the split of the [bytes] object [samples]
    by the [str] literal. *)
Theorem set_samples_positive_answer_raises
    (self : VCFFile.t) (names : list string) (c : string) (h : bcf_hdr_t) :
  ENC_encode (String.concat "," names) = Some c ->
  VCFFile.hdr self = Some h ->
  0 < fst (bcf_hdr_set_samples h c 0) ->
  fst (VCFFile.set_samples self (PyList (PyStr <$> names)))
    = Raise (TypeError "a bytes-like object is required").
Proof.
  intros He Hh Hret. unfold VCFFile.set_samples.
  cbn [py_join]. rewrite mapM_fmap. cbn [as_str].
  rewrite (mapM_Return (fun a => a)), list_fmap_id, !bind_Return.
  cbn [to_bytes]. rewrite He. cbn [fmap option_fmap option_map from_option as_bytes].
  cbn [mbind outcome_bind as_bytes]. rewrite Hh. cbn [from_option mbind outcome_bind].
  destruct (bcf_hdr_set_samples h c 0) as [ret h']. cbn [fst] in Hret.
  replace (ret >=? 0) with true by (symmetry; apply Z.geb_le; lia).
  replace (ret =? 0) with false by (symmetry; apply Z.eqb_neq; lia).
  reflexivity.
Qed.

(** ** Eager and lazy decoding *)

Lemma unpack_group_mask (w1 w2 bit : Z) dec (b : bcf1_t) :
  has_bits w1 bit = has_bits w2 bit ->
  unpack_group w1 bit dec b = unpack_group w2 bit dec b.
Proof. intros E. unfold unpack_group. rewrite E. reflexivity. Qed.

(** Decoding the sample block touches none of the site fields. *)
Lemma unpack_group_fmt_site (w : Z) (b : bcf1_t) :
  site_fields (unpack_group w BCF_UN_FMT
                 (fun b => set_d_fmt (d b) (unpack_fmt (indiv b))) b)
  = site_fields b.
Proof.
  unfold unpack_group.
  destruct (has_bits w BCF_UN_FMT && negb (has_bits (unpacked b) BCF_UN_FMT));
    reflexivity.
Qed.

(** The two masks of [newRecord] differ in the sample block only. *)
Lemma bcf_unpack_site_parity (b : bcf1_t) :
  site_fields (bcf_unpack b 15) = site_fields (bcf_unpack b (Z.lor (Z.lor 1 2) 4)).
Proof.
  unfold bcf_unpack. destruct (shared b) as [|c s] eqn:Hs; [reflexivity|].
  change (Z.lor (Z.lor 1 2) 4) with 7.
  change (has_bits 15 BCF_UN_FLT) with true.
  change (has_bits 7 BCF_UN_FLT) with true.
  cbn beta iota.
  change (Z.lor 15 BCF_UN_STR) with 15. change (Z.lor 7 BCF_UN_STR) with 7.
  change (has_bits 15 BCF_UN_INFO) with true.
  change (has_bits 7 BCF_UN_INFO) with true.
  cbn beta iota zeta.
  change (Z.lor 15 BCF_UN_SHR) with 15. change (Z.lor 7 BCF_UN_SHR) with 7.
  rewrite unpack_group_fmt_site.
  rewrite (unpack_group_fmt_site 7).
  rewrite (unpack_group_mask 15 7 BCF_UN_STR) by reflexivity.
  rewrite (unpack_group_mask 15 7 BCF_UN_FLT) by reflexivity.
  rewrite (unpack_group_mask 15 7 BCF_UN_INFO) by reflexivity.
  reflexivity.
Qed.

Lemma newRecord_mode (b : bcf1_t) (l : loc) (f : VCFFile.t) (σ : gmap loc VCFFile.t) :
  σ !! l = Some f ->
  newRecord b l σ =
    Return {| Record.b := Some (bcf_unpack b (if VCFFile.lazy f then Z.lor (Z.lor 1 2) 4 else 15));
              Record.vcf := Some l |}.
Proof.
  intros Hs. unfold newRecord. rewrite Hs. cbn [from_option]. rewrite bind_Return.
  destruct (VCFFile.lazy f); reflexivity.
Qed.

Section same_site.
Variables (b1 b2 : bcf1_t) (l : loc).
Hypothesis Hsite : site_fields b1 = site_fields b2.

Abbreviation r1 := {| Record.b := Some b1; Record.vcf := Some l |}.
Abbreviation r2 := {| Record.b := Some b2; Record.vcf := Some l |}.

Lemma POS_site : Record.POS r1 = Record.POS r2.
Proof. injection Hsite as _ E _ _ _ _ _. cbn. rewrite E. reflexivity. Qed.

Lemma ID_site : Record.ID r1 = Record.ID r2.
Proof. injection Hsite as _ _ _ _ E _ _. cbn. rewrite E. reflexivity. Qed.

Lemma REF_site : Record.REF r1 = Record.REF r2.
Proof. injection Hsite as _ _ _ _ _ E _. cbn. rewrite E. reflexivity. Qed.

Lemma ALT_site : Record.ALT r1 = Record.ALT r2.
Proof.
  injection Hsite as _ _ _ En _ E _.
  unfold Record.ALT. cbn. rewrite E, En. reflexivity.
Qed.

Lemma QUAL_site : Record.QUAL r1 = Record.QUAL r2.
Proof. injection Hsite as _ _ E _ _ _ _. cbn. rewrite E. reflexivity. Qed.

Variables (f1 f2 : VCFFile.t) (σ1 σ2 : gmap loc VCFFile.t).
Hypothesis Hf1 : σ1 !! l = Some f1.
Hypothesis Hf2 : σ2 !! l = Some f2.
Hypothesis Hhdr : VCFFile.hdr f1 = VCFFile.hdr f2.
Hypothesis HPASS : VCFFile.PASS f1 = VCFFile.PASS f2.

Lemma CHROM_site : Record.CHROM r1 σ1 = Record.CHROM r2 σ2.
Proof.
  injection Hsite as E _ _ _ _ _ _.
  unfold Record.CHROM, Record.the_vcf, Record.the_b.
  cbn [Record.b Record.vcf from_option]. rewrite !bind_Return, Hf1, Hf2.
  cbn [from_option]. rewrite !bind_Return, Hhdr.
  destruct (VCFFile.hdr f2); [|reflexivity].
  cbn [from_option]. rewrite !bind_Return, E. reflexivity.
Qed.

Lemma FILTER_rest_site :
  Record.FILTER_rest b1 (Return f1) = Record.FILTER_rest b2 (Return f2).
Proof.
  injection Hsite as _ _ _ _ _ _ E.
  unfold Record.FILTER_rest, n_flt. rewrite E, !bind_Return, Hhdr. reflexivity.
Qed.

Lemma FILTER_site :
  fst (Record.FILTER r1 σ1) = fst (Record.FILTER r2 σ2) /\
  PASS_at l (snd (Record.FILTER r1 σ1)) = PASS_at l (snd (Record.FILTER r2 σ2)).
Proof.
  assert (PASS_at l σ1 = PASS_at l σ2) as Hsame
    by (unfold PASS_at; rewrite Hf1, Hf2; cbn; f_equal; exact HPASS).
  pose proof FILTER_rest_site as Hrest.
  injection Hsite as _ _ _ _ _ _ E.
  unfold Record.FILTER, Record.the_b. cbn [Record.b Record.vcf from_option].
  rewrite (the_vcf_found r1 σ1 l f1 eq_refl Hf1), (the_vcf_found r2 σ2 l f2 eq_refl Hf2).
  rewrite !bind_Return, Hf1, Hf2. cbn [from_option]. rewrite !bind_Return.
  unfold n_flt. rewrite E, Hrest, Hhdr, HPASS.
  destruct (Z.of_nat (length (d_flt (d b2))) =? 1); [|split; [reflexivity|assumption]].
  destruct (negb (VCFFile.PASS f2 =? -1)).
  - destruct (c_index (d_flt (d b2)) 0) as [f0|]; [|split; [reflexivity|assumption]].
    destruct (f0 =? VCFFile.PASS f2); split; try reflexivity; assumption.
  - destruct (_ ≫= _) as [[f0 v]|]; [|split; [reflexivity|assumption]].
    destruct (py_eq (PyBytes v) (PyBytes "PASS")); [|split; [reflexivity|assumption]].
    split; [reflexivity|]. cbn [snd]. unfold PASS_at.
    rewrite !lookup_insert_eq. reflexivity.
Qed.
End same_site.

(** C5: a raw record decoded for a file in eager mode and the same
    raw record decoded for the same file in lazy mode give the same
    CHROM, POS, ID, REF, ALT, QUAL and FILTER: the same value or the
    same exception, and for FILTER the same content of the PASS cache
    afterwards.  Both decodings succeed. *)
Theorem eager_lazy_parity (b : bcf1_t) (l : loc) (f : VCFFile.t) (σ : gmap loc VCFFile.t) :
  let σe := <[l := set_lazy f false]> σ in
  let σl := <[l := set_lazy f true]> σ in
  exists re rl,
    newRecord b l σe = Return re /\
    newRecord b l σl = Return rl /\
    Record.CHROM re σe = Record.CHROM rl σl /\
    Record.POS re = Record.POS rl /\
    Record.ID re = Record.ID rl /\
    Record.REF re = Record.REF rl /\
    Record.ALT re = Record.ALT rl /\
    Record.QUAL re = Record.QUAL rl /\
    fst (Record.FILTER re σe) = fst (Record.FILTER rl σl) /\
    PASS_at l (snd (Record.FILTER re σe)) = PASS_at l (snd (Record.FILTER rl σl)).
Proof.
  intros σe σl.
  assert (σe !! l = Some (set_lazy f false)) as He by apply lookup_insert_eq.
  assert (σl !! l = Some (set_lazy f true)) as Hl by apply lookup_insert_eq.
  pose proof (bcf_unpack_site_parity b) as Hsite.
  eexists _, _.
  split; [exact (newRecord_mode b l _ σe He)|].
  split; [exact (newRecord_mode b l _ σl Hl)|].
  cbn [set_lazy VCFFile.lazy].
  split; [apply (CHROM_site _ _ l Hsite _ _ σe σl He Hl); reflexivity|].
  split; [apply (POS_site _ _ l Hsite)|].
  split; [apply (ID_site _ _ l Hsite)|].
  split; [apply (REF_site _ _ l Hsite)|].
  split; [apply (ALT_site _ _ l Hsite)|].
  split; [apply (QUAL_site _ _ l Hsite)|].
  apply (FILTER_site _ _ l Hsite _ _ σe σl He Hl); reflexivity.
Qed.

(** ** QUAL *)

(** The reserved pattern is itself a not-a-number. *)
Lemma bcf_float_missing_is_nan : is_nan32 bcf_float_missing = true.
Proof. reflexivity. Qed.

(** C6: QUAL is the absence marker exactly when the 32 bits of the
    quality are the reserved pattern; on every other pattern it is
    the number with these bits, unchanged. *)
Theorem QUAL_exact_missing_pattern (r : Record.t) (bb : bcf1_t) :
  Record.b r = Some bb ->
  (Record.QUAL r = Return PyNone <-> qual bb = bcf_float_missing) /\
  (qual bb <> bcf_float_missing -> Record.QUAL r = Return (PyFloat (qual bb))).
Proof.
  intros Hb. unfold Record.QUAL, Record.the_b, bcf_float_is_missing.
  rewrite Hb. cbn [from_option]. rewrite bind_Return.
  destruct (Z.eqb_spec (qual bb) bcf_float_missing) as [E|N].
  - split; [split; [intros _; exact E|reflexivity]|]. intros C. contradiction.
  - split; [split; [discriminate|]|reflexivity]. intros C. contradiction.
Qed.

(** A not-a-number other than the reserved pattern is a value of
    QUAL like any other: the test is on the bits. *)
Lemma QUAL_other_nan (r : Record.t) (bb : bcf1_t) :
  Record.b r = Some bb ->
  is_nan32 (qual bb) = true ->
  qual bb <> bcf_float_missing ->
  Record.QUAL r = Return (PyFloat (qual bb)).
Proof.
  intros Hb _ N. unfold Record.QUAL, Record.the_b, bcf_float_is_missing.
  rewrite Hb. cbn [from_option]. rewrite bind_Return.
  apply Z.eqb_neq in N. rewrite N. reflexivity.
Qed.

(** ** POS, REF and ALT *)

Lemma wrap_int32_small (z : Z) : - 2 ^ 31 <= z < 2 ^ 31 -> wrap_int32 z = z.
Proof. intros Hz. unfold wrap_int32. rewrite Z.mod_small; lia. Qed.

Lemma mapM_Forall_Return {A B} (f : A -> outcome B) (g : A -> B) (l : list A) :
  Forall (fun a => f a = Return (g a)) l -> mapM f l = Return (g <$> l).
Proof.
  induction 1 as [|a l Ha _ IH]; [reflexivity|].
  cbn [mapM]. rewrite Ha, IH. reflexivity.
Qed.

Lemma decode_valid (s : string) : utf8_valid s = true -> decode s = Return s.
Proof. intros E. unfold decode. rewrite E. reflexivity. Qed.

(** C7: on a valid record, POS is the 0-based position plus one, REF
    is the allele at index 0, and ALT is the list of the alleles at
    the indices from 1 on, in their order; ALT is empty when the
    record has one allele. *)
Theorem POS_REF_ALT_of_valid_record (r : Record.t) (bb : bcf1_t) :
  Record.b r = Some bb ->
  valid_record bb ->
  exists ref alts,
    d_allele (d bb) = ref :: alts /\
    Record.POS r = Return (PyInt (pos bb + 1)) /\
    Record.REF r = Return (PyStr ref) /\
    Record.ALT r = Return (PyList (PyStr <$> alts)) /\
    (n_allele bb = 1 -> Record.ALT r = Return (PyList [])).
Proof.
  intros Hb (Hpos & Hn1 & Hn & Htext).
  destruct (d_allele (d bb)) as [|ref alts] eqn:Ea; [cbn in Hn; lia|].
  exists ref, alts. split; [reflexivity|].
  inversion Htext as [|? ? Href Halts]; subst.
  assert (Record.ALT r = Return (PyList (PyStr <$> alts))) as HALT.
  { unfold Record.ALT, Record.the_b. rewrite Hb. cbn [from_option].
    rewrite bind_Return, Ea, Hn.
    rewrite (mapM_py_range (fun a => PyStr <$> decode a) [ref] alts).
    rewrite (mapM_Forall_Return _ PyStr); [reflexivity|].
    eapply Forall_impl; [exact Halts|].
    intros a Ha. cbn beta in Ha. rewrite (decode_valid a Ha). reflexivity. }
  split.
  { unfold Record.POS, Record.the_b. rewrite Hb. cbn [from_option].
    rewrite bind_Return, wrap_int32_small by lia. reflexivity. }
  split.
  { unfold Record.REF, Record.the_b. rewrite Hb. cbn [from_option].
    rewrite bind_Return, Ea, c_index_head, bind_Return, (decode_valid ref Href).
    reflexivity. }
  split; [exact HALT|].
  intros Hone. rewrite HALT. rewrite Hone in Hn.
  destruct alts; [reflexivity|]. cbn [length] in Hn. lia.
Qed.

(** ** ID *)

(** C8 (amended): the ID accessor gives the empty list on the sentinel
    [.]; any other value that is UTF-8 is cut at every [;]: the
    pieces, in their order, joined again by [;] are the internal
    value, and no piece holds a [;]; any other value that is not UTF-8
    gives no sequence: the accessor raises [UnicodeDecodeError]. *)
Theorem ID_dot_or_split (r : Record.t) (bb : bcf1_t) :
  Record.b r = Some bb ->
  (d_id (d bb) = "." -> Record.ID r = Return (PyList [])) /\
  (d_id (d bb) <> "." -> utf8_valid (d_id (d bb)) = true ->
   exists ids,
     Record.ID r = Return (PyList (PyStr <$> ids)) /\
     ids = split_by ";" 0 (d_id (d bb)) /\
     String.concat ";" ids = d_id (d bb) /\
     Forall (fun w => free_of ";" w = true) ids) /\
  (d_id (d bb) <> "." -> utf8_valid (d_id (d bb)) = false ->
   Record.ID r = Raise UnicodeDecodeError).
Proof.
  intros Hb. unfold Record.ID, Record.the_b. rewrite Hb. cbn [from_option].
  rewrite bind_Return. cbn [py_eq]. split; [|split].
  - intros ->. reflexivity.
  - intros N Hv. apply String.eqb_neq in N. rewrite N.
    rewrite (decode_valid _ Hv), bind_Return.
    exists (split_by ";" 0 (d_id (d bb))).
    split; [reflexivity|]. split; [reflexivity|].
    split; [apply split_by_char_join|apply split_by_char_free].
  - intros N Hv. apply String.eqb_neq in N. rewrite N.
    unfold decode. rewrite Hv. reflexivity.
Qed.

(** ** Header lines *)

(** A generic entry becomes [HeaderLine(key, value)]. *)
Lemma build_generic (fac : HeaderLineFactory.t) (r : bcf_hrec_t) (key value : string) (v : string) :
  hrec_type r = BCF_HL_GEN ->
  from_cstr (hrec_key r) = Return key ->
  hrec_value r = Some v ->
  from_cstr v = Return value ->
  HeaderLineFactory.build fac r = Return (HeaderLine key value).
Proof.
  intros Ht Hk Hv Hd. unfold HeaderLineFactory.build. rewrite Ht, Z.eqb_refl.
  unfold HeaderLineFactory._build_generic.
  rewrite Hk, bind_Return, Hv. cbn [from_option]. rewrite bind_Return, Hd.
  reflexivity.
Qed.

(** Any other entry goes to the parser registered for its tag, and
    to the default parser when none is. *)
Lemma build_parsed (fac : HeaderLineFactory.t) (r : bcf_hrec_t)
    (key : string) (mapping : list (string * string))
    (dflt : string -> string -> outcome header_line) :
  hrec_type r <> BCF_HL_GEN ->
  HeaderLineFactory.mapping_of r = Return mapping ->
  from_cstr (hrec_key r) = Return key ->
  HeaderLineFactory.parsers fac !! "__default__" = Some dflt ->
  HeaderLineFactory.build fac r =
    match HeaderLineFactory.parsers fac !! key with
    | Some parser => parser key (HeaderLineFactory.mapping_s_of mapping)
    | None => dflt key (HeaderLineFactory.mapping_s_of mapping)
    end.
Proof.
  intros Ht Hm Hk Hd. unfold HeaderLineFactory.build.
  apply Z.eqb_neq in Ht. rewrite Ht.
  unfold HeaderLineFactory._build_parsed.
  rewrite Hm, bind_Return, Hk, bind_Return, Hd. cbn [from_option].
  rewrite bind_Return.
  destruct (HeaderLineFactory.parsers fac !! key); reflexivity.
Qed.

Lemma load_lines_unfold (fac : HeaderLineFactory.t) (h : bcf_hdr_t) (r0 : bcf_hrec_t) rs :
  hrec h = r0 :: rs ->
  VCFFile.load_lines fac h =
    (_ ← HeaderLineFactory.build fac r0; mapM (HeaderLineFactory.build fac) (hrec h)).
Proof.
  intros Hr. unfold VCFFile.load_lines, nhrec.
  rewrite mapM_py_range_0.
  rewrite Hr at 1. rewrite c_index_head, bind_Return. reflexivity.
Qed.

(** The loop of [load_header], given a factory and a header with at
    least one raw entry: it returns a sequence of lines exactly when
    every entry can be built, and then the lines are the results of
    [build] on the entries, one per entry, in the order of the entries,
    repeated entries included. *)
Lemma load_lines_keep_order (fac : HeaderLineFactory.t) (h : bcf_hdr_t) :
  hrec h <> [] ->
  (forall lines,
      VCFFile.load_lines fac h = Return lines <->
      Forall2 (fun r line => HeaderLineFactory.build fac r = Return line) (hrec h) lines) /\
  (forall lines,
      VCFFile.load_lines fac h = Return lines ->
      length lines = length (hrec h) /\
      forall (i : nat) r, hrec h !! i = Some r ->
        exists line, lines !! i = Some line /\ HeaderLineFactory.build fac r = Return line).
Proof.
  intros NE.
  destruct (hrec h) as [|r0 rs] eqn:Hr; [contradiction|].
  assert (forall lines,
      VCFFile.load_lines fac h = Return lines <->
      Forall2 (fun r line => HeaderLineFactory.build fac r = Return line) (r0 :: rs) lines)
    as Hiff.
  { intros lines. rewrite (load_lines_unfold fac h r0 rs Hr), Hr.
    rewrite <- mapM_Forall2. split.
    - destruct (HeaderLineFactory.build fac r0); [|discriminate].
      rewrite bind_Return. trivial.
    - intros E. cbn [mapM] in E |- *.
      destruct (HeaderLineFactory.build fac r0); [|discriminate].
      rewrite bind_Return. exact E. }
  split; [exact Hiff|].
  intros lines E. apply Hiff in E. split.
  - symmetry. eapply Forall2_length. exact E.
  - intros i r Hi. destruct (Forall2_lookup_l _ _ _ _ _ E Hi) as (line & ? & ?).
    exists line. split; assumption.
Qed.

(** The loop reads entry 0 before it looks at the count: on a header
    without entries it fails. *)
Lemma load_lines_no_entry (fac : HeaderLineFactory.t) (h : bcf_hdr_t) :
  hrec h = [] -> VCFFile.load_lines fac h = Raise Segfault.
Proof. intros E. unfold VCFFile.load_lines. rewrite E. reflexivity. Qed.

(** C9 (where the header is lost): [load_header] never gets to build a
    line.  [newHeaderLineFactory] takes the result of
    [HeaderLineFactory.__init__(HeaderLineFactory)], which is [None],
    for a new instance and writes its fields through it; no factory
    exists when the loop is reached, whatever the header holds.  The
    loop, given a factory and at least one raw entry, returns one line
    per entry, each the result of [build] on its entry, in the order of
    the entries. *)
Theorem load_header_fails_before_its_loop :
  (forall self : VCFFile.t, VCFFile.load_header self = Raise Segfault) /\
  (forall (fac : HeaderLineFactory.t) (h : bcf_hdr_t) lines,
      hrec h <> [] ->
      (VCFFile.load_lines fac h = Return lines <->
       Forall2 (fun r line => HeaderLineFactory.build fac r = Return line) (hrec h) lines)).
Proof.
  split; [reflexivity|].
  intros fac h lines NE. apply (load_lines_keep_order fac h NE).
Qed.

(** ** Construction of records *)

(** C10: calling the [Record] class raises [TypeError] whatever the
    arguments; a record comes from [newRecord], which attaches the
    unpacked raw buffer and the reference to the owning file, and
    [__next__] hands out exactly such a record after a successful
    read. *)
Theorem Record_not_constructible_directly :
  (forall args kwargs,
      Record.__call__ args kwargs
      = Raise (TypeError "Variant object cannot be instantiated directly.")) /\
  (forall b l σ f,
      σ !! l = Some f ->
      exists b',
        newRecord b l σ = Return {| Record.b := Some b'; Record.vcf := Some l |} /\
        b' = bcf_unpack b (if VCFFile.lazy f then 7 else 15) /\
        (rid b', pos b', qual b', n_allele b', shared b', indiv b')
        = (rid b, pos b, qual b, n_allele b, shared b, indiv b)) /\
  (forall l σ f s h,
      σ !! l = Some f -> VCFFile.hts f = Some s -> VCFFile.hdr f = Some h ->
      let '(ret, b, s') := bcf_read s h in
      fst (fst (VCFFile__next__ l σ)) =
        if ret >=? 0
        then newRecord b l (<[l := VCFFile.set_hts f (Some s')]> σ)
        else Raise StopIteration).
Proof.
  split; [reflexivity|]. split.
  - intros b l σ f Hs. eexists. split; [apply (newRecord_mode b l f σ Hs)|].
    split; [reflexivity|].
    unfold bcf_unpack. destruct (shared b) eqn:E; [rewrite E; reflexivity|].
    unfold unpack_group.
    repeat match goal with
           | |- context [if ?c then _ else _] => destruct c
           end; cbn; rewrite ?E; reflexivity.
  - intros l σ f s h Hs Hf Hh.
    unfold VCFFile__next__. rewrite Hs, Hf, Hh.
    destruct (bcf_read s h) as [[ret b] s'].
    destruct (ret >=? 0); reflexivity.
Qed.
End properties.

(** * The properties on the small instance *)

(** C1 at a concrete record: the cache holds 0, the id of [PASS]; the
    record has the single filter 1, named [q10]; FILTER is the [bytes]
    object [q10], not a list holding it. *)
Lemma FILTER_cached_single_other_witness :
  Record.FILTER (demo_record 0 [1]) (demo_store 0)
  = (Return (PyBytes "q10"), demo_store 0).
Proof.
  apply (FILTER_cached_single_other_is_bare_bytes
           (demo_record 0 [1]) (demo_store 0) (demo_bcf1 0 [1]) 1%positive
           (demo_file 0) demo_hdr 1 "q10");
    first [reflexivity | discriminate].
Defined.

(** C2 at a concrete record: the cache is empty and the record has the
    single filter 0, named [PASS]; FILTER is the list holding [PASS] and
    the cache now holds 0. *)
Lemma FILTER_uncached_single_witness :
  Record.FILTER (demo_record 0 [0]) (demo_store (-1))
  = (Return (PyList [PyStr "PASS"]),
     <[1%positive := VCFFile.set_PASS (demo_file (-1)) 0]> (demo_store (-1))).
Proof.
  apply (FILTER_uncached_single
           (demo_record 0 [0]) (demo_store (-1)) (demo_bcf1 0 [0]) 1%positive
           (demo_file (-1)) demo_hdr 0 "PASS");
    reflexivity.
Defined.

(** Reading FILTER twice on the same passing record of a fresh file
    gives two different answers: the list holding [PASS] first, the
    empty list once the id is cached. *)
Example FILTER_PASS_read_twice :
  let r := demo_record 0 [0] in
  let first := Record.FILTER r (demo_store (-1)) in
  let second := Record.FILTER r (snd first) in
  fst first = Return (PyList [PyStr "PASS"]) /\
  fst second = Return (PyList []) /\
  PASS_at 1%positive (snd first) = Some 0.
Proof. cbv zeta. repeat split; vm_compute; reflexivity. Qed.

(** A single filter that is not [PASS], read while the cache is empty:
    the bare name again. *)
Example FILTER_uncached_other :
  fst (Record.FILTER (demo_record 0 [1]) (demo_store (-1))) = Return (PyBytes "q10").
Proof. vm_compute. reflexivity. Qed.

(** C3 at an open file: the header is released, then the stream, and
    a second teardown releases nothing. *)
Lemma dealloc_in_order_on_built_files_witness :
  fst (VCFFile.__dealloc__ (demo_file 0))
  = [VCFFile.bcf_hdr_destroy demo_hdr; VCFFile.hts_close (mem_stream [])] /\
  in_order spec_rank (fst (VCFFile.__dealloc__ (demo_file 0))) = true /\
  fst (VCFFile.__dealloc__ (snd (VCFFile.__dealloc__ (demo_file 0)))) = [] /\
  snd (VCFFile.__dealloc__ (snd (VCFFile.__dealloc__ (demo_file 0))))
  = snd (VCFFile.__dealloc__ (demo_file 0)).
Proof.
  apply (dealloc_in_order_on_built_files (demo_file 0)).
  apply (built_write VCFFile.allocated); [apply built_allocated|reflexivity|reflexivity].
Defined.

(** On a state with a tabix index set, which no line of the source
    builds, the header and the stream would be released before the
    index. *)
Example dealloc_not_indexes_first :
  fst (VCFFile.__dealloc__ (demo_file_with 0 (Some {| tbx_addr := 4096 |}) None))
  = [VCFFile.bcf_hdr_destroy demo_hdr; VCFFile.hts_close (mem_stream []);
     VCFFile.tbx_destroy {| tbx_addr := 4096 |}] /\
  in_order spec_rank
    (fst (VCFFile.__dealloc__ (demo_file_with 0 (Some {| tbx_addr := 4096 |}) None)))
  = false.
Proof. split; reflexivity. Qed.

(** C4 at a concrete call: of the three names asked for, the second is
    not in the header, the native call answers 2, fewer than 3, and
    [set_samples] raises instead of warning. *)
Lemma set_samples_positive_answer_witness :
  fst (bcf_hdr_set_samples (Htslib := mem_htslib) demo_hdr "A,Z,B" 0) = 2 /\
  fst (VCFFile.set_samples (rt := utf8_runtime) (demo_file 0)
         (PyList [PyStr "A"; PyStr "Z"; PyStr "B"]))
  = Raise (TypeError "a bytes-like object is required").
Proof.
  split; [reflexivity|].
  apply (set_samples_positive_answer_raises (rt := utf8_runtime)
           (demo_file 0) ["A"; "Z"; "B"] "A,Z,B" demo_hdr);
    reflexivity.
Defined.

(** Asking for no change: no warning and no exception. *)
Example set_samples_None :
  fst (VCFFile.set_samples (rt := utf8_runtime) (demo_file 0) PyNone) = Return [].
Proof. reflexivity. Qed.

(** C6 at the edge value 0.0, whose bits are all zero. *)
Lemma QUAL_exact_missing_pattern_witness :
  (Record.QUAL (demo_record 0 []) = Return PyNone <-> 0 = bcf_float_missing) /\
  (0 <> bcf_float_missing -> Record.QUAL (demo_record 0 []) = Return (PyFloat 0)).
Proof. exact (QUAL_exact_missing_pattern (demo_record 0 []) (demo_bcf1 0 []) eq_refl). Defined.

Example QUAL_zero : Record.QUAL (demo_record 0 []) = Return (PyFloat 0).
Proof. reflexivity. Qed.

Example QUAL_missing : Record.QUAL (demo_record 0x7F800001 []) = Return PyNone.
Proof. reflexivity. Qed.

(** The quiet not-a-number is not the reserved pattern: QUAL returns it. *)
Example QUAL_quiet_nan :
  is_nan32 0x7FC00000 = true /\
  Record.QUAL (demo_record 0x7FC00000 []) = Return (PyFloat 0x7FC00000).
Proof. split; reflexivity. Qed.

Lemma demo_bcf1_valid (q : Z) (fl : list Z) : valid_record (demo_bcf1 q fl).
Proof.
  unfold valid_record. cbn.
  split; [lia|]. split; [lia|]. split; [reflexivity|].
  repeat constructor.
Defined.

(** C7 at a record at 0-based position 99 with the alleles A, C, G. *)
Lemma POS_REF_ALT_of_valid_record_witness :
  exists ref alts,
    d_allele (d (demo_bcf1 0 [])) = ref :: alts /\
    Record.POS (demo_record 0 []) = Return (PyInt (99 + 1)) /\
    Record.REF (demo_record 0 []) = Return (PyStr ref) /\
    Record.ALT (demo_record 0 []) = Return (PyList (PyStr <$> alts)) /\
    (n_allele (demo_bcf1 0 []) = 1 -> Record.ALT (demo_record 0 []) = Return (PyList [])).
Proof.
  exact (POS_REF_ALT_of_valid_record (demo_record 0 []) (demo_bcf1 0 []) eq_refl
           (demo_bcf1_valid 0 [])).
Defined.

Example POS_REF_ALT_values :
  Record.POS (demo_record 0 []) = Return (PyInt 100) /\
  Record.REF (demo_record 0 []) = Return (PyStr "A") /\
  Record.ALT (demo_record 0 []) = Return (PyList [PyStr "C"; PyStr "G"]).
Proof. repeat split; reflexivity. Qed.

(** C8 at the internal value [rs1;rs2]. *)
Lemma ID_dot_or_split_witness :
  ("rs1;rs2" = "." -> Record.ID (demo_record 0 []) = Return (PyList [])) /\
  ("rs1;rs2" <> "." -> utf8_valid "rs1;rs2" = true ->
   exists ids,
     Record.ID (demo_record 0 []) = Return (PyList (PyStr <$> ids)) /\
     ids = split_by ";" 0 "rs1;rs2" /\
     String.concat ";" ids = "rs1;rs2" /\
     Forall (fun w => free_of ";" w = true) ids) /\
  ("rs1;rs2" <> "." -> utf8_valid "rs1;rs2" = false ->
   Record.ID (demo_record 0 []) = Raise UnicodeDecodeError).
Proof. exact (ID_dot_or_split (demo_record 0 []) (demo_bcf1 0 []) eq_refl). Defined.

(** C8, against the claim as it stands: an id that is not the sentinel
    and is not split.  The id is the single byte [0xFF]; the accessor
    raises [UnicodeDecodeError]. *)
Lemma ID_not_split_when_not_utf8 :
  d_id (d bad_id_bcf1) <> "." /\
  Record.ID {| Record.b := Some bad_id_bcf1; Record.vcf := None |}
  = Raise UnicodeDecodeError.
Proof. split; [discriminate|reflexivity]. Qed.

Example ID_values :
  Record.ID (demo_record 0 []) = Return (PyList [PyStr "rs1"; PyStr "rs2"]) /\
  Record.ID {| Record.b := Some empty_bcf1; Record.vcf := None |}
  = Return (PyList [PyStr ""]).
Proof. split; reflexivity. Qed.

(** C9 at [demo_hdr]: the loop of [load_header], run with the factory
    that [newHeaderLineFactory] means to build, turns the three entries
    into three lines in the order of the entries: the generic one, the
    [FILTER] one through the default parser, the [contig] one through
    its own parser, whose repeated sub-key [ID] keeps its first place
    and takes its last value.  [load_header] itself fails first. *)
Example load_lines_on_demo_hdr :
  VCFFile.load_lines (rt := utf8_runtime) (hm := demo_header)
    {| HeaderLineFactory.hdr := Some demo_hdr;
       HeaderLineFactory.warning_helper := mkWarningHelper;
       HeaderLineFactory.parsers := build_header_parsers |} demo_hdr
  = Return [GenericLine "fileformat" "VCFv4.2";
            OtherLine "FILTER" "ID='PASS',Description='All filters passed'";
            ContigLine "ID='chrX',length='1000'"] /\
  VCFFile.load_header (rt := utf8_runtime) (hm := demo_header) (demo_file 0)
  = Raise Segfault.
Proof. split; reflexivity. Qed.

(** C5 at a packed record: the eager and the lazy decoding differ in
    the unpacked groups they record, not in the site fields. *)
Example eager_lazy_on_packed_record :
  let b := {| rid := 0; pos := 7; qual := 0; n_allele := 2; shared := "T,C"; indiv := "0/1";
              unpacked := 0; d := empty_dec |} in
  unpacked (bcf_unpack (lib := mem_htslib) b 15) = 15 /\
  unpacked (bcf_unpack (lib := mem_htslib) b (Z.lor (Z.lor 1 2) 4)) = 7 /\
  site_fields (bcf_unpack (lib := mem_htslib) b 15)
  = (0, 7, 0, 2, "T,C", ["T"; "C"], []).
Proof. cbv zeta. repeat split; reflexivity. Qed.

(** C10 at concrete arguments, and a record handed out by iteration. *)
Example Record_call_with_arguments :
  Record.__call__ [PyInt 1; PyStr "chr1"] [("pos", PyInt 3)]
  = Raise (TypeError "Variant object cannot be instantiated directly.").
Proof. reflexivity. Qed.

Example next_gives_a_record :
  let σ := {[ 1%positive :=
                VCFFile.set_hts (demo_file (-1)) (Some (mem_stream [demo_bcf1 0 [0]])) ]} in
  fst (fst (VCFFile__next__ 1%positive σ))
  = Return {| Record.b := Some (demo_bcf1 0 [0]); Record.vcf := Some 1%positive |} /\
  fst (fst (VCFFile__next__ 1%positive (demo_store (-1)))) = Raise StopIteration.
Proof. cbv zeta. split; reflexivity. Qed.

(** * Further properties *)

Section further.
Context {rt : PyRuntime} {lib : Htslib} {hm : HeaderModel}.

(** ** to_bytes and from_bytes *)

(** X1: whatever [to_bytes] returns is a [bytes] object, and a second
    [to_bytes] leaves it as it is; a [bytes] argument is returned
    unchanged, without a look at the encoding. *)
Theorem to_bytes_ensures_bytes (v w : pyval) :
  to_bytes v = Return w ->
  exists c, w = PyBytes c /\ to_bytes w = Return w /\
            (forall c', v = PyBytes c' -> c = c').
Proof.
  destruct v; cbn; try discriminate.
  - intros E. inversion E; subst. exists b. repeat split. intros c' Ec. congruence.
  - destruct (ENC_encode s) as [c|]; cbn; [|discriminate].
    intros E. inversion E; subst. exists c. repeat split. intros c' Ec. discriminate.
Qed.

(** X2: [from_bytes] never returns a [bytes] object and leaves what it
    returns unchanged when applied again; on [bytes] it fails exactly
    when both the preferred encoding and UTF-8 reject the bytes, and
    anything that is not [bytes] passes through. *)
Theorem from_bytes_ensures_no_bytes :
  (forall v w, from_bytes v = Return w ->
     (forall c, w <> PyBytes c) /\ from_bytes w = Return w) /\
  (forall b, (exists e, from_bytes (PyBytes b) = Raise e) <->
     ENC_decode b = None /\ utf8_valid b = false) /\
  (forall v, (forall c, v <> PyBytes c) -> from_bytes v = Return v).
Proof.
  split; [|split].
  - intros v w. destruct v; cbn; try (intros E; inversion E; subst; split;
      [discriminate|reflexivity]).
    destruct (ENC_decode b) as [x|].
    + intros E. inversion E; subst. split; [discriminate|reflexivity].
    + unfold decode. destruct (utf8_valid b); cbn; [|discriminate].
      intros E. inversion E; subst. split; [discriminate|reflexivity].
  - intros b. cbn. unfold decode. destruct (ENC_decode b) as [x|].
    + split; [intros [e E]; discriminate|intros [E _]; discriminate].
    + destruct (utf8_valid b); cbn.
      * split; [intros [e E]; discriminate|intros [_ E]; discriminate].
      * split; [intros _; split; reflexivity|intros _; eexists; reflexivity].
  - intros v Hv. destruct v; try reflexivity. exfalso. apply (Hv b). reflexivity.
Qed.

(** X3: text that the preferred encoding can encode and decode back
    survives [to_bytes] followed by [from_bytes]. *)
Theorem from_bytes_to_bytes_round_trip (s c : string) :
  ENC_encode s = Some c ->
  ENC_decode c = Some s ->
  (b ← to_bytes (PyStr s); from_bytes b) = Return (PyStr s).
Proof.
  intros He Hd. cbn [to_bytes]. rewrite He. cbn [fmap option_fmap option_map from_option].
  rewrite bind_Return. cbn [from_bytes]. rewrite Hd. reflexivity.
Qed.

(** ** The mapping of a structured header entry *)

Lemma mapM_index2_from {A B C} (fk : A -> outcome C) (fv : B -> outcome C)
    (suf1 : list A) (suf2 : list B) (pre1 : list A) (pre2 : list B) :
  length pre1 = length pre2 ->
  (length suf1 <= length suf2)%nat ->
  mapM (fun i => k ← (p ← c_index (pre1 ++ suf1) i; fk p);
                 v ← (p ← c_index (pre2 ++ suf2) i; fv p);
                 Return (k, v))
       ((fun k => Z.of_nat (length pre1) + Z.of_nat k) <$> seq 0 (length suf1))
  = mapM (fun kv => k ← fk (fst kv); v ← fv (snd kv); Return (k, v)) (zip suf1 suf2).
Proof.
  revert suf2 pre1 pre2. induction suf1 as [|a suf1 IH]; intros suf2 pre1 pre2 Hp Hl;
    [reflexivity|].
  destruct suf2 as [|b suf2]; [cbn in Hl; lia|].
  cbn [length seq fmap list_fmap mapM zip zip_with fst snd].
  rewrite Z.add_0_r, c_index_app, Hp, c_index_app, !bind_Return.
  rewrite <- fmap_S_seq, <- list_fmap_compose.
  specialize (IH suf2 (pre1 ++ [a]) (pre2 ++ [b])).
  rewrite <- !app_assoc in IH. cbn [app] in IH.
  rewrite <- Hp.
  erewrite list_fmap_ext; [rewrite IH; [reflexivity|..]|].
  - rewrite !length_app. cbn [length]. lia.
  - cbn [length] in Hl. lia.
  - intros _ k _. cbn. rewrite length_app. cbn [length]. lia.
Qed.

(** The comprehension of [mapping_of] pairs [keys[i]] with [vals[i]]. *)
Lemma mapping_of_zip (r : bcf_hrec_t) :
  (length (hrec_keys r) <= length (hrec_vals r))%nat ->
  HeaderLineFactory.mapping_of r =
    (pairs ← mapM decode_pair (zip (hrec_keys r) (hrec_vals r)); Return (OrderedDict pairs)).
Proof.
  intros Hl. unfold HeaderLineFactory.mapping_of, nkeys, py_range.
  rewrite Z.sub_0_r, Nat2Z.id.
  rewrite (mapM_index2_from from_cstr from_cstr (hrec_keys r) (hrec_vals r) [] [] eq_refl Hl).
  reflexivity.
Qed.

Lemma od_set_keys (k v : string) (m : list (string * string)) :
  (od_set k v m).*1 = if bool_decide (k ∈ m.*1) then m.*1 else m.*1 ++ [k].
Proof.
  induction m as [|[k' v'] m IH]; [reflexivity|].
  cbn [od_set]. destruct (String.eqb_spec k' k) as [->|N].
  - cbn. rewrite bool_decide_eq_true_2 by constructor. reflexivity.
  - cbn [fmap list_fmap fst]. change (list_fmap _ _ fst ?x) with (x.*1). rewrite IH.
    destruct (bool_decide_reflect (k ∈ m.*1)) as [Hin|Hin].
    + rewrite bool_decide_eq_true_2 by (cbn; right; exact Hin). reflexivity.
    + rewrite bool_decide_eq_false_2; [reflexivity|].
      cbn. intros Hc. apply elem_of_cons in Hc as [->|Hc]; contradiction.
Qed.

Lemma od_set_assoc (k v k0 : string) (m : list (string * string)) :
  assoc_first k0 (od_set k v m) = if String.eqb k k0 then Some v else assoc_first k0 m.
Proof.
  induction m as [|[k' v'] m IH]; [reflexivity|].
  cbn [od_set]. destruct (String.eqb_spec k' k) as [->|N].
  - cbn [assoc_first]. destruct (String.eqb k k0); reflexivity.
  - cbn [assoc_first]. rewrite IH.
    destruct (String.eqb_spec k' k0) as [->|N0]; [|reflexivity].
    destruct (String.eqb_spec k k0) as [->|_]; [contradiction|reflexivity].
Qed.

Lemma first_seen_ext (s1 s2 ks : list string) :
  (forall x, x ∈ s1 <-> x ∈ s2) -> first_seen s1 ks = first_seen s2 ks.
Proof.
  revert s1 s2. induction ks as [|k ks IH]; intros s1 s2 E; [reflexivity|].
  cbn [first_seen].
  destruct (bool_decide_reflect (k ∈ s1)) as [H1|H1].
  - rewrite bool_decide_eq_true_2 by (apply E; exact H1). apply IH, E.
  - rewrite bool_decide_eq_false_2 by (rewrite <- E; exact H1).
    f_equal. apply IH. intros x. rewrite !elem_of_cons, E. reflexivity.
Qed.

Lemma first_seen_not_seen (seen ks : list string) (x : string) :
  x ∈ first_seen seen ks -> x ∉ seen.
Proof.
  revert seen. induction ks as [|k ks IH]; intros seen; cbn [first_seen]; [inversion 1|].
  destruct (bool_decide_reflect (k ∈ seen)) as [H1|H1]; [apply IH|].
  intros Hx. apply elem_of_cons in Hx as [->|Hx]; [exact H1|].
  apply IH in Hx. intros Hc. apply Hx. right. exact Hc.
Qed.

Lemma first_seen_NoDup (seen ks : list string) : NoDup (first_seen seen ks).
Proof.
  revert seen. induction ks as [|k ks IH]; intros seen; cbn [first_seen]; [constructor|].
  destruct (bool_decide (k ∈ seen)); [apply IH|].
  constructor; [|apply IH].
  intros Hc. apply first_seen_not_seen in Hc. apply Hc. left.
Qed.

(** Folding [od_set] over pairs, from any dictionary built so far. *)
Lemma OrderedDict_fold (pairs acc : list (string * string)) :
  let m := fold_left (fun m kv => od_set (fst kv) (snd kv) m) pairs acc in
  m.*1 = acc.*1 ++ first_seen acc.*1 pairs.*1 /\
  forall k, assoc_first k m =
            match assoc_last k pairs with Some v => Some v | None => assoc_first k acc end.
Proof.
  revert acc. induction pairs as [|[k v] pairs IH]; intros acc; cbn zeta.
  - cbn. rewrite app_nil_r. split; [reflexivity|]. intros k. reflexivity.
  - cbn [fold_left fst snd]. destruct (IH (od_set k v acc)) as [Hk Ha]. split.
    + rewrite Hk, od_set_keys. cbn [fmap list_fmap fst first_seen].
      change (list_fmap _ _ fst ?x) with (x.*1).
      destruct (bool_decide_reflect (k ∈ acc.*1)) as [Hin|Hin]; [reflexivity|].
      rewrite <- app_assoc. cbn [app]. do 2 f_equal.
      apply first_seen_ext. intros x. rewrite elem_of_app, !elem_of_cons, elem_of_nil.
      tauto.
    + intros k0. rewrite Ha, od_set_assoc. cbn [assoc_last].
      destruct (assoc_last k0 pairs); [reflexivity|].
      rewrite String.eqb_sym. destruct (String.eqb k0 k); reflexivity.
Qed.

(** X4: the mapping built for a structured header entry pairs
    [keys[i]] with [vals[i]] and holds every sub-key once: the
    sub-keys stand in the order in which they first occur, and a
    repeated sub-key has the value of its last occurrence. *)
Theorem mapping_of_collapses_repeats (r : bcf_hrec_t) (pairs : list (string * string)) :
  (length (hrec_keys r) <= length (hrec_vals r))%nat ->
  mapM decode_pair (zip (hrec_keys r) (hrec_vals r)) = Return pairs ->
  exists m,
    HeaderLineFactory.mapping_of r = Return m /\
    NoDup m.*1 /\
    m.*1 = first_seen [] pairs.*1 /\
    forall k, assoc_first k m = assoc_last k pairs.
Proof.
  intros Hl Hp. exists (OrderedDict pairs).
  rewrite (mapping_of_zip r Hl), Hp, bind_Return.
  destruct (OrderedDict_fold pairs []) as [Hk Ha]. cbn zeta in Hk, Ha.
  split; [reflexivity|]. unfold OrderedDict. split; [|split].
  - rewrite Hk. cbn. apply first_seen_NoDup.
  - rewrite Hk. reflexivity.
  - intros k. rewrite Ha. cbn. destruct (assoc_last k pairs); reflexivity.
Qed.

(** X6: without a [__default__] entry in the registry every structured
    entry fails with [KeyError], also one whose own tag is registered:
    the fallback is looked up before the tag. *)
Theorem build_needs_default_parser (fac : HeaderLineFactory.t) (r : bcf_hrec_t)
    (key : string) (mapping : list (string * string)) :
  hrec_type r <> BCF_HL_GEN ->
  HeaderLineFactory.mapping_of r = Return mapping ->
  from_cstr (hrec_key r) = Return key ->
  HeaderLineFactory.parsers fac !! "__default__" = None ->
  HeaderLineFactory.build fac r = Raise (KeyError "__default__").
Proof.
  intros Ht Hm Hk Hd. unfold HeaderLineFactory.build.
  apply Z.eqb_neq in Ht. rewrite Ht.
  unfold HeaderLineFactory._build_parsed.
  rewrite Hm, bind_Return, Hk, bind_Return, Hd. reflexivity.
Qed.

(** ** Opening and closing a file *)

Ltac split_match :=
  match goal with
  | |- context [match ?x with _ => _ end] =>
      lazymatch x with
      | context [match _ with _ => _ end] => fail
      | _ => destruct x eqn:?
      end
  end.

Lemma set_samples_only_hdr (self : VCFFile.t) (samples : pyval) :
  exists o, snd (VCFFile.set_samples self samples) = VCFFile.set_hdr self o.
Proof.
  unfold VCFFile.set_samples.
  repeat split_match; cbn [snd]; try (eexists; reflexivity).
  all: exists (VCFFile.hdr self); destruct self; reflexivity.
Qed.

Lemma set_threads_only_hts (self : VCFFile.t) (n : pyval) :
  exists o, snd (VCFFile.set_threads self n) = VCFFile.set_hts self o /\
            (fst (VCFFile.set_threads self n) = Return tt -> is_Some o).
Proof.
  assert (self = VCFFile.set_hts self (VCFFile.hts self)) as Hid
    by (destruct self; reflexivity).
  unfold VCFFile.set_threads.
  destruct (as_c_int n) as [k|e]; cbn [fst snd];
    [|exists (VCFFile.hts self); split; [exact Hid|discriminate]].
  destruct (VCFFile.hts self) as [f|] eqn:Hf; cbn [fst snd];
    [|exists None; split; [exact Hid|discriminate]].
  destruct (hts_set_threads f k) as [v f']. destruct (v <? 0); cbn [fst snd].
  - eexists. split; [reflexivity|discriminate].
  - eexists. split; [reflexivity|]. intros _. eexists. reflexivity.
Qed.

Lemma init_result_shape
    (fname mode : pyval) (lazy : bool) (samples threads : pyval) w (self : VCFFile.t) :
  VCFFile.__init__ fname mode lazy samples threads = Return (w, self) ->
  w = [] /\
  (exists f h, VCFFile.hts self = Some f /\ VCFFile.hdr self = Some h /\
               VCFFile.n_samples self = bcf_hdr_nsamples h) /\
  VCFFile.PASS self = -1 /\
  VCFFile.idx self = None /\ VCFFile.hidx self = None /\
  VCFFile.lazy self = lazy.
Proof.
  unfold VCFFile.__init__, mbind, outcome_bind.
  repeat split_match; try discriminate;
    intros E; inversion E; subst; clear E;
    repeat match goal with
           | H : Return _ = Return _ |- _ => inversion H; subst; clear H
           | H : VCFFile.set_samples ?a ?s = (Return ?w, ?t) |- _ =>
               let K := fresh "K" in
               let W := fresh "W" in
               pose proof (set_samples_never_warns a s w) as W;
               pose proof (set_samples_only_hdr a s) as K;
               rewrite H in K, W; cbn [fst snd] in K, W; destruct K as [? ->];
               specialize (W eq_refl); subst; clear H
           | H : VCFFile.set_threads ?a ?k = (Return ?u, ?t) |- _ =>
               let K := fresh "K" in
               pose proof (set_threads_only_hts a k) as K;
               rewrite H in K; cbn [fst snd] in K; destruct K as (? & -> & K);
               destruct (K ltac:(destruct u; reflexivity)) as [? ->]; clear H
           | H : from_option Segfault ?o = Return _ |- _ =>
               destruct o eqn:?; cbn in H; [inversion H; subst; clear H|discriminate]
           end;
    cbn in *; subst;
    (split; [reflexivity|]); (split; [eexists _, _; repeat split; reflexivity|]);
    repeat split; reflexivity.
Qed.

(** X7: a file that [__init__] returns has written nothing to
    [stderr], holds an open stream and a header, counts the samples of
    that header, has an empty [PASS] cache and no index structure, and
    decodes in the requested mode. *)
Theorem init_opens_clean_file
    (fname mode : pyval) (lazy : bool) (samples threads : pyval) w (self : VCFFile.t) :
  VCFFile.__init__ fname mode lazy samples threads = Return (w, self) ->
  w = [] /\
  (exists f h, VCFFile.hts self = Some f /\ VCFFile.hdr self = Some h /\
               VCFFile.n_samples self = bcf_hdr_nsamples h) /\
  VCFFile.PASS self = -1 /\
  VCFFile.idx self = None /\ VCFFile.hidx self = None /\
  VCFFile.lazy self = lazy.
Proof. apply init_result_shape. Qed.

(** X8: the three fatal errors of opening.  A path that does not exist
    raises [Exception] before anything is opened; a path that htslib
    cannot open raises [IOError]; a stream whose format is neither VCF
    nor BCF raises [IOError]. *)
Theorem init_fatal_errors
    (fname mode : pyval) (lazy : bool) (samples threads : pyval) (p c m : string) :
  fname = PyBytes p \/ fname = PyStr p ->
  (path_exists p = false ->
   VCFFile.__init__ fname mode lazy samples threads
   = Raise (Exception "bad path: %s" fname)) /\
  (path_exists p = true ->
   to_bytes fname = Return (PyBytes c) -> to_bytes mode = Return (PyBytes m) ->
   (hts_open c m = None ->
    VCFFile.__init__ fname mode lazy samples threads
    = Raise (IOError "Error opening %s" (PyBytes c))) /\
   (forall f, hts_open c m = Some f -> hts_format f <> vcf -> hts_format f <> bcf ->
    VCFFile.__init__ fname mode lazy samples threads
    = Raise (IOError "%s if not valid bcf or vcf" (PyBytes c)))).
Proof.
  intros Hf.
  assert (forall b, path_exists p = b ->
            (match fname with
             | PyBytes q | PyStr q => Return (path_exists q)
             | PyInt k => if in_c_int k then Return (fd_exists k) else Raise OverflowError
             | _ => Raise (TypeError "stat: path should be string, bytes or integer")
             end : outcome bool) = Return b) as Hex
    by (intros b <-; destruct Hf as [-> | ->]; reflexivity).
  split.
  - intros He. unfold VCFFile.__init__. rewrite (Hex _ He). reflexivity.
  - intros He Hc Hm. unfold VCFFile.__init__. rewrite (Hex _ He), bind_Return.
    cbn [negb]. rewrite Hc, bind_Return, Hm, bind_Return. cbn [as_bytes].
    rewrite !bind_Return. split.
    + intros Ho. rewrite Ho. reflexivity.
    + intros f Ho Hv Hb. rewrite Ho.
      rewrite !bool_decide_eq_false_2 by assumption. reflexivity.
Qed.


(** ** Samples and threads *)

Lemma mapM_as_str (names : list string) :
  mapM as_str (PyStr <$> names) = Return names.
Proof.
  rewrite mapM_fmap. cbn [as_str].
  rewrite (mapM_Return (fun a => a)), list_fmap_id. reflexivity.
Qed.

(** X10: what [set_samples] does is decided by the status of the native
    call on the names as one [bytes] string ([-] for [None], the
    comma-joined names for a list): a negative status fails the
    assertion, zero returns without a warning, a positive status raises
    [TypeError]; in all three cases the header is the one the native
    call left. *)
Theorem set_samples_by_status
    (self : VCFFile.t) (samples : pyval) (c : string) (h : bcf_hdr_t) :
  VCFFile.hdr self = Some h ->
  (samples = PyNone /\ c = "-") \/
  samples = PyBytes c \/
  (exists s, samples = PyStr s /\ ENC_encode s = Some c) \/
  (exists names, samples = PyList (PyStr <$> names) /\
                 ENC_encode (String.concat "," names) = Some c) ->
  VCFFile.set_samples self samples =
    (if fst (bcf_hdr_set_samples h c 0) <? 0 then Raise AssertionError
     else if fst (bcf_hdr_set_samples h c 0) =? 0 then Return []
     else Raise (TypeError "a bytes-like object is required"),
     VCFFile.set_hdr self (Some (snd (bcf_hdr_set_samples h c 0)))).
Proof.
  intros Hh Hs. unfold VCFFile.set_samples.
  assert (match match samples with PyNone => PyBytes "-" | _ => samples end with
          | PyList xs => s ← py_join (PyStr ",") xs; to_bytes s
          | _ => to_bytes match samples with PyNone => PyBytes "-" | _ => samples end
          end = Return (PyBytes c)) as ->.
  { destruct Hs as [[-> ->]|[->|[(s & -> & He)|(names & -> & He)]]].
    - reflexivity.
    - reflexivity.
    - cbn. rewrite He. reflexivity.
    - cbn [py_join]. rewrite mapM_as_str, !bind_Return. cbn. rewrite He. reflexivity. }
  rewrite bind_Return. cbn [as_bytes]. rewrite bind_Return, Hh. cbn [from_option].
  rewrite bind_Return.
  destruct (bcf_hdr_set_samples h c 0) as [ret h']. cbn [fst snd].
  rewrite Z.geb_leb, <- Z.ltb_antisym.
  destruct (ret <? 0); [reflexivity|].
  destruct (ret =? 0); reflexivity.
Qed.

Lemma mapM_as_str_fails (xs : list pyval) (x : pyval) :
  x ∈ xs -> (forall s, x <> PyStr s) ->
  mapM as_str xs = Raise (TypeError "expected str instance").
Proof.
  intros Hin Hx. induction xs as [|y xs IH]; [inversion Hin|].
  cbn [mapM]. apply elem_of_cons in Hin as [<-|Hin].
  - destruct x; try reflexivity. exfalso. apply (Hx s). reflexivity.
  - rewrite (IH Hin). destruct y; reflexivity.
Qed.

(** X11: arguments that cannot be turned into one [bytes] string are
    refused before the native call, and the file is left as it was: a
    list with an element that is not a [str] raises [TypeError], an
    integer or a float raises [AttributeError]. *)
Theorem set_samples_refuses_before_native_call (self : VCFFile.t) :
  (forall xs x, x ∈ xs -> (forall s, x <> PyStr s) ->
     VCFFile.set_samples self (PyList xs)
     = (Raise (TypeError "expected str instance"), self)) /\
  (forall z, VCFFile.set_samples self (PyInt z) = (Raise AttributeError, self)) /\
  (forall q, VCFFile.set_samples self (PyFloat q) = (Raise AttributeError, self)).
Proof.
  split; [|split; reflexivity].
  intros xs x Hin Hx. unfold VCFFile.set_samples. cbn [py_join].
  rewrite (mapM_as_str_fails xs x Hin Hx). reflexivity.
Qed.

(** X12: [set_threads] converts its argument to a C [int] first: an
    [int] outside the range of a C [int] raises [OverflowError], a
    [float] is truncated, and an argument that does not convert
    raises with the file left as it was.  With the converted number
    the call on an open file raises exactly when the native call
    answers with a negative status; either way the file keeps its
    header, its [PASS] cache, its index pointers, its mode and its
    samples, and holds the stream the native call left. *)
Theorem set_threads_leaves_file_usable (self : VCFFile.t) (n : pyval) (f : htsFile) :
  VCFFile.hts self = Some f ->
  (forall k, n = PyInt k ->
     as_c_int n = (if in_c_int k then Return k else Raise OverflowError)) /\
  let '(out, self') := VCFFile.set_threads self n in
  match as_c_int n with
  | Return k =>
      ((exists e, out = Raise e) <-> fst (hts_set_threads f k) < 0) /\
      VCFFile.hts self' = Some (snd (hts_set_threads f k)) /\
      self' = VCFFile.set_hts self (VCFFile.hts self')
  | Raise e => out = Raise e /\ self' = self
  end.
Proof.
  intros Hf. split; [intros k ->; reflexivity|].
  unfold VCFFile.set_threads.
  destruct (as_c_int n) as [k|e]; [|split; reflexivity].
  rewrite Hf. destruct (hts_set_threads f k) as [v f']. cbn [fst snd].
  destruct (Z.ltb_spec v 0).
  - split; [split; [intros _; assumption|intros _; eexists; reflexivity]|].
    split; reflexivity.
  - split; [split; [intros [e E]; discriminate|lia]|]. split; reflexivity.
Qed.

Lemma from_bytes_all_str (ps : list string) (vs : list pyval) :
  Forall2 (fun p v => from_bytes (PyBytes p) = Return v) ps vs ->
  exists names, vs = PyStr <$> names /\ length names = length ps.
Proof.
  induction 1 as [|p v ps vs Hp _ IH].
  - exists []. split; reflexivity.
  - destruct IH as (names & -> & Hl).
    assert (exists s, v = PyStr s) as [s ->].
    { cbn in Hp. destruct (ENC_decode p); [inversion Hp; eauto|].
      unfold decode in Hp. destruct (utf8_valid p); cbn in Hp; [inversion Hp; eauto|].
      discriminate. }
    exists (s :: names). split; [reflexivity|].
    cbn [length]. rewrite Hl. reflexivity.
Qed.

(** X13: [get_samples] returns the sample names of the header, decoded,
    one per sample and in the order of the header; it returns exactly
    when every name decodes. *)
Theorem get_samples_in_header_order (self : VCFFile.t) (h : bcf_hdr_t) :
  VCFFile.hdr self = Some h ->
  (forall vs, VCFFile.get_samples self = Return (PyList vs) <->
     Forall2 (fun p v => from_bytes (PyBytes p) = Return v) (hdr_samples h) vs) /\
  (forall v, VCFFile.get_samples self = Return v ->
     exists names, v = PyList (PyStr <$> names) /\
                   length names = length (hdr_samples h)).
Proof.
  intros Hh.
  assert (VCFFile.get_samples self
          = PyList <$> mapM (fun p => from_bytes (PyBytes p)) (hdr_samples h)) as E.
  { unfold VCFFile.get_samples, bcf_hdr_nsamples. rewrite Hh. cbn [from_option].
    rewrite bind_Return, mapM_py_range_0. reflexivity. }
  split.
  - intros vs. rewrite E, <- mapM_Forall2.
    destruct (mapM _ (hdr_samples h)) as [l|]; cbn; [|split; discriminate].
    split; intros H; inversion H; reflexivity.
  - intros v. rewrite E.
    destruct (mapM _ (hdr_samples h)) as [l|] eqn:El; cbn; [|discriminate].
    intros H. inversion H; subst. clear H. apply mapM_Forall2 in El.
    destruct (from_bytes_all_str _ _ El) as (names & -> & Hl).
    exists names. split; [reflexivity|exact Hl].
Qed.

(** ** Iteration *)

(** X14: the buffer that a read fills is never lost and never
    released twice.  On a file with a stream and a header, when the
    read fails [__next__] releases the buffer that [bcf_read] filled
    and ends the iteration; when the read succeeds nothing is released
    and the record that is returned refers to the file and owns that
    buffer, unpacked in place in the mode of the file;
    [Record.__dealloc__] releases exactly that buffer and clears the
    pointer, and a second [__dealloc__] releases nothing. *)
Theorem next_buffer_owned_or_released
    (l : loc) (σ : gmap loc VCFFile.t) (f : VCFFile.t) (s : htsFile) (h : bcf_hdr_t) :
  σ !! l = Some f -> VCFFile.hts f = Some s -> VCFFile.hdr f = Some h ->
  let '(ret, b, _) := bcf_read s h in
  let '(res, tr, _) := VCFFile__next__ l σ in
  if ret >=? 0 then
    let bb := bcf_unpack b (if VCFFile.lazy f then Z.lor (Z.lor 1 2) 4 else 15) in
    let r := {| Record.b := Some bb; Record.vcf := Some l |} in
    res = Return r /\ tr = [] /\
    Record__dealloc__ r
    = ([VCFFile.bcf_destroy bb], {| Record.b := None; Record.vcf := Some l |}) /\
    Record__dealloc__ (snd (Record__dealloc__ r)) = ([], snd (Record__dealloc__ r))
  else res = Raise StopIteration /\ tr = [VCFFile.bcf_destroy b].
Proof.
  intros Hl Hs Hh. unfold VCFFile__next__. rewrite Hl, Hs, Hh.
  destruct (bcf_read s h) as [[ret b] s'].
  destruct (ret >=? 0); [|split; reflexivity].
  rewrite (newRecord_mode b l _ _ (lookup_insert_eq _ _ _)).
  replace (VCFFile.lazy (VCFFile.set_hts f (Some s'))) with (VCFFile.lazy f)
    by (destruct f; reflexivity).
  repeat split; reflexivity.
Qed.

(** ** The PASS cache *)

Lemma FILTER_writes (r : Record.t) (σ : gmap loc VCFFile.t) :
  snd (Record.FILTER r σ) = σ \/
  exists l f i h,
    σ !! l = Some f /\ VCFFile.PASS f = -1 /\ VCFFile.hdr f = Some h /\
    bcf_hdr_int2id h BCF_DT_ID i = Return "PASS" /\
    snd (Record.FILTER r σ) = <[l := VCFFile.set_PASS f i]> σ.
Proof.
  unfold Record.FILTER.
  destruct (Record.the_b r) as [bb|]; [|left; reflexivity].
  destruct (n_flt (d bb) =? 1); [|left; reflexivity].
  destruct (from_option Segfault (Record.vcf r) ≫= _) as [[l f]|] eqn:Pre;
    [|left; reflexivity].
  destruct (negb (VCFFile.PASS f =? -1)) eqn:Hc.
  { destruct (c_index (d_flt (d bb)) 0) as [f0|]; [|left; reflexivity].
    destruct (f0 =? VCFFile.PASS f); left; reflexivity. }
  destruct (from_option Segfault (VCFFile.hdr f) ≫= _) as [[f0 v]|] eqn:Res;
    [|left; reflexivity].
  cbn [py_eq]. destruct (String.eqb_spec v "PASS") as [->|]; [|left; reflexivity].
  right. exists l, f, f0.
  destruct (VCFFile.hdr f) as [h|]; [|discriminate].
  exists h. cbn [from_option] in Res. rewrite bind_Return in Res.
  destruct (c_index (d_flt (d bb)) 0) as [f0'|]; [|discriminate].
  rewrite bind_Return in Res.
  destruct (bcf_hdr_int2id h BCF_DT_ID f0') as [v'|] eqn:Hv; [|discriminate].
  inversion Res; subst.
  destruct (Record.vcf r) as [l1|]; [|discriminate].
  cbn [from_option] in Pre. rewrite bind_Return in Pre.
  destruct (σ !! l1) eqn:E1; [|discriminate]. inversion Pre; subst.
  apply negb_false_iff, Z.eqb_eq in Hc.
  repeat split; assumption.
Qed.

(** X16: over any sequence of FILTER reads, no file appears or
    disappears, a file changes in its [PASS] cache only, and a cache
    that was sound stays sound: once filled, it holds an id that the
    filter dictionary of the file names [PASS]. *)
Theorem FILTER_keeps_cache_sound (rs : list Record.t) (σ : gmap loc VCFFile.t) :
  (forall l f, σ !! l = Some f -> cache_sound f) ->
  Forall (fun σ' => forall l,
            option_Forall2 (fun f f' => f' = VCFFile.set_PASS f (VCFFile.PASS f') /\
                                        cache_sound f')
                           (σ !! l) (σ' !! l))
         (FILTER_run rs σ).
Proof.
  assert (forall f : VCFFile.t, f = VCFFile.set_PASS f (VCFFile.PASS f)) as Hid
    by (intros []; reflexivity).
  revert σ. induction rs as [|r rs IH]; intros σ Hs; [constructor|].
  cbn [FILTER_run].
  set (σ1 := snd (Record.FILTER r σ)).
  assert (forall l, option_Forall2
            (fun f f' => f' = VCFFile.set_PASS f (VCFFile.PASS f') /\ cache_sound f')
            (σ !! l) (σ1 !! l)) as Hstep.
  { intros l. subst σ1.
    destruct (FILTER_writes r σ) as [->|(l0 & f & i & h & Hl & Hp & Hh & Hi & ->)].
    - destruct (σ !! l) as [f|] eqn:E; constructor. split; [apply Hid|apply (Hs l f E)].
    - destruct (decide (l0 = l)) as [<-|N].
      + rewrite lookup_insert_eq, Hl. constructor. split; [reflexivity|].
        right. exists h. split; [destruct f; exact Hh|destruct f; exact Hi].
      + rewrite lookup_insert_ne by assumption.
        destruct (σ !! l) as [g|] eqn:E; constructor.
        split; [apply Hid|apply (Hs l g E)]. }
  constructor; [exact Hstep|].
  assert (forall l f, σ1 !! l = Some f -> cache_sound f) as Hs1.
  { intros l f E. specialize (Hstep l). rewrite E in Hstep.
    inversion Hstep as [? ? [_ Hc]|]; subst. exact Hc. }
  specialize (IH σ1 Hs1). eapply Forall_impl; [exact IH|].
  intros σ' H l. specialize (H l). specialize (Hstep l).
  destruct Hstep as [f f1 [E1 _]|]; inversion H as [? f2 [E2 Hc]|]; subst; constructor.
  split; [|exact Hc]. rewrite E2, E1. destruct f; reflexivity.
Qed.

(** ** Accessors at their edges *)

Lemma split_by_char_length (c : ascii) (s : string) :
  length (split_by (String c EmptyString) 0 s) = S (count_char c s).
Proof.
  induction s as [|a s IH]; [reflexivity|].
  rewrite split_by_char_cons. cbn [count_char].
  destruct (Ascii.eqb a c).
  - cbn [length]. rewrite IH. reflexivity.
  - pose proof (split_by_nonempty (String c EmptyString) 0 s) as NE.
    destruct (split_by (String c EmptyString) 0 s) as [|w ws]; [contradiction|].
    cbn [length] in *. lia.
Qed.

(** X17: an id other than [.] gives one entry more than it has [;]:
    the list is never empty, an id without [;] is returned alone, and
    an empty piece is kept as an empty string.  An id that is not
    UTF-8 raises [UnicodeDecodeError]. *)
Theorem ID_one_more_than_separators (r : Record.t) (bb : bcf1_t) :
  Record.b r = Some bb ->
  d_id (d bb) <> "." ->
  if utf8_valid (d_id (d bb))
  then exists ids,
         Record.ID r = Return (PyList (PyStr <$> ids)) /\
         length ids = S (count_char ";" (d_id (d bb))) /\
         (count_char ";" (d_id (d bb)) = 0%nat -> ids = [d_id (d bb)])
  else Record.ID r = Raise UnicodeDecodeError.
Proof.
  intros Hb N. unfold Record.ID, Record.the_b. rewrite Hb. cbn [from_option].
  rewrite bind_Return. cbn [py_eq]. apply String.eqb_neq in N. rewrite N.
  unfold decode. destruct (utf8_valid (d_id (d bb))); [|reflexivity].
  rewrite bind_Return. exists (split_by ";" 0 (d_id (d bb))).
  split; [reflexivity|]. split; [apply split_by_char_length|].
  intros H0. pose proof (split_by_char_length ";" (d_id (d bb))) as Hl.
  pose proof (split_by_char_join ";" (d_id (d bb))) as Hj.
  rewrite H0 in Hl.
  destruct (split_by ";" 0 (d_id (d bb))) as [|w [|w' ws]]; try discriminate.
  cbn in Hj. rewrite Hj. reflexivity.
Qed.

Lemma mapM_decode_all (alts : list string) :
  mapM (fun a => PyStr <$> decode a) alts
  = if forallb utf8_valid alts then Return (PyStr <$> alts) else Raise UnicodeDecodeError.
Proof.
  induction alts as [|a alts IH]; [reflexivity|].
  cbn [mapM forallb]. destruct (utf8_valid a) eqn:Ha; cbn [andb].
  - rewrite (decode_valid a Ha). change (PyStr <$> Return a) with (Return (PyStr a)).
    rewrite bind_Return, IH. destruct (forallb utf8_valid alts); reflexivity.
  - assert (decode a = Raise UnicodeDecodeError) as ->
      by (unfold decode; rewrite Ha; reflexivity).
    reflexivity.
Qed.

(** X18: REF and ALT decode their own alleles only.  On a record
    whose allele count is the number of unpacked alleles, REF is the
    first allele when that allele is UTF-8 and raises
    [UnicodeDecodeError] when it is not; ALT is the list of the other
    alleles when all of them are UTF-8 and raises [UnicodeDecodeError]
    when one is not.  Neither looks at the alleles of the other: ALT
    is returned also when REF cannot be decoded. *)
Theorem ALT_REF_decode_their_own (r : Record.t) (bb : bcf1_t) (ref : string) alts :
  Record.b r = Some bb ->
  d_allele (d bb) = ref :: alts ->
  n_allele bb = Z.of_nat (length (ref :: alts)) ->
  Record.REF r = (if utf8_valid ref then Return (PyStr ref) else Raise UnicodeDecodeError) /\
  Record.ALT r = (if forallb utf8_valid alts then Return (PyList (PyStr <$> alts))
                  else Raise UnicodeDecodeError).
Proof.
  intros Hb Ea Hn. unfold Record.REF, Record.ALT, Record.the_b. rewrite Hb.
  cbn [from_option]. rewrite !bind_Return, Ea, Hn. split.
  - rewrite c_index_head, bind_Return. unfold decode.
    destruct (utf8_valid ref); reflexivity.
  - rewrite (mapM_py_range (fun a => PyStr <$> decode a) [ref] alts).
    rewrite mapM_decode_all. destruct (forallb utf8_valid alts); reflexivity.
Qed.

(** X19: CHROM returns exactly when the reference id of the record
    indexes the contig dictionary of the header at a name that is
    UTF-8, and then it is that name; a negative or too large id gives
    no name. *)
Theorem CHROM_resolves_reference_id
    (r : Record.t) (σ : gmap loc VCFFile.t) bb l f h (v : pyval) :
  Record.b r = Some bb -> Record.vcf r = Some l -> σ !! l = Some f ->
  VCFFile.hdr f = Some h ->
  Record.CHROM r σ = Return v <->
  exists name, 0 <= rid bb /\ ctg_dict h !! Z.to_nat (rid bb) = Some name /\
               utf8_valid name = true /\ v = PyStr name.
Proof.
  intros Hb Hv Hs Hh. unfold Record.CHROM, Record.the_b.
  rewrite (the_vcf_found r σ l f Hv Hs), bind_Return, Hh, Hb. cbn [from_option].
  rewrite !bind_Return. unfold bcf_hdr_id2name, c_index, decode.
  destruct (Z.ltb_spec (rid bb) 0) as [Hn|Hn].
  { split; [discriminate|]. intros (name & H0 & _). lia. }
  destruct (ctg_dict h !! Z.to_nat (rid bb)) as [name|]; cbn [from_option].
  - rewrite bind_Return. destruct (utf8_valid name) eqn:Hu; cbn.
    + split.
      * intros E. inversion E. exists name. repeat split; assumption.
      * intros (name' & _ & E & _ & ->). inversion E. reflexivity.
    + split; [discriminate|]. intros (name' & _ & E & Hu' & _). inversion E; subst.
      congruence.
  - split; [discriminate|]. intros (name' & _ & E & _). discriminate.
Qed.

Lemma valid_record_accessors (r : Record.t) (bb : bcf1_t) (ref : string) alts :
  Record.b r = Some bb ->
  valid_record bb ->
  d_allele (d bb) = ref :: alts ->
  Record.POS r = Return (PyInt (pos bb + 1)) /\
  Record.REF r = Return (PyStr ref) /\
  Record.ALT r = Return (PyList (PyStr <$> alts)).
Proof.
  intros Hb (Hpos & Hn1 & Hn & Htext) Ea. rewrite Ea in Hn, Htext.
  inversion Htext as [|? ? Href Halts]; subst.
  unfold Record.POS, Record.REF, Record.ALT, Record.the_b. rewrite Hb.
  cbn [from_option]. rewrite !bind_Return. split; [|split].
  - rewrite wrap_int32_small by lia. reflexivity.
  - rewrite Ea, c_index_head, bind_Return, (decode_valid ref Href). reflexivity.
  - rewrite Ea, Hn.
    rewrite (mapM_py_range (fun a => PyStr <$> decode a) [ref] alts).
    rewrite (mapM_Forall_Return _ PyStr); [reflexivity|].
    eapply Forall_impl; [exact Halts|].
    intros a Ha. cbn beta in Ha. rewrite (decode_valid a Ha). reflexivity.
Qed.

(** X20: the representation of a valid record whose chromosome
    resolves is [Record(CHROM:POS REF/ALT1,ALT2,...)], with the 1-based
    position in decimal and nothing after the [/] when the record has
    no alternative allele. *)
Theorem repr_of_valid_record
    (r : Record.t) (σ : gmap loc VCFFile.t) (bb : bcf1_t) (c ref : string) alts :
  Record.b r = Some bb ->
  valid_record bb ->
  Record.CHROM r σ = Return (PyStr c) ->
  d_allele (d bb) = ref :: alts ->
  Record__repr__ r σ =
    Return (PyStr ("Record(" ++ c ++ ":" ++ decimal (pos bb + 1) ++ " " ++ ref ++ "/"
                   ++ String.concat "," alts ++ ")")%string).
Proof.
  intros Hb Hv Hc Ea.
  destruct (valid_record_accessors r bb ref alts Hb Hv Ea) as (HP & HR & HA).
  unfold Record__repr__. rewrite Hc, HP, HR, HA, !bind_Return.
  unfold py_join. rewrite mapM_as_str, !bind_Return. reflexivity.
Qed.

(** ** _ReaderImpl *)

(** X21: the file name [-], as [str] or as [bytes], stands for
    [/dev/stdin]: it is that path which is looked for and named in the
    error when it does not exist. *)
Theorem ReaderImpl_dash_is_stdin
    (fname tabix_path : pyval) (lazy : bool) (samples threads : pyval) :
  fname = PyStr "-" \/ fname = PyBytes "-" ->
  tabix_path = PyNone \/ (exists t, tabix_path = PyStr t) ->
  threads = PyNone \/ (exists k, threads = PyInt k /\ - 2 ^ 31 <= k < 2 ^ 31) ->
  path_exists "/dev/stdin" = false ->
  _ReaderImpl.__init__ fname tabix_path lazy samples threads
  = Raise (Exception "bad path: %s" (PyBytes "/dev/stdin")).
Proof.
  intros Hf Ht Hth He. unfold _ReaderImpl.__init__.
  assert ((if py_eq fname (PyBytes "-") || py_eq fname (PyStr "-")
           then PyBytes "/dev/stdin" else fname) = PyBytes "/dev/stdin") as ->
    by (destruct Hf as [-> | ->]; reflexivity).
  cbn [to_bytes]. rewrite bind_Return.
  assert (exists p, from_bytes (PyBytes "/dev/stdin") = Return (PyStr p)) as [p ->].
  { cbn [from_bytes]. destruct (ENC_decode "/dev/stdin"); eexists; reflexivity. }
  rewrite bind_Return. cbn [_ReaderImpl.as_str_attr]. rewrite bind_Return.
  assert ((p ← from_bytes tabix_path; _ReaderImpl.as_str_attr p) = Return tabix_path) as ->
    by (destruct Ht as [->|[t ->]]; reflexivity).
  rewrite bind_Return.
  assert (exists k, as_c_int
                      (if py_truthy threads then threads else PyInt 1) = Return k) as [k ->].
  { destruct Hth as [->|(k & -> & Hk)]; [exists 1; reflexivity|].
    cbn [py_truthy]. destruct (k =? 0); cbn [negb]; [exists 1; reflexivity|].
    exists k. unfold as_c_int, in_c_int.
    destruct (Z.leb_spec (- 2 ^ 31) k); [|lia].
    destruct (Z.ltb_spec k (2 ^ 31)); [reflexivity|lia]. }
  rewrite bind_Return. unfold VCFFile.__init__. rewrite He. reflexivity.
Qed.

(** X22: no [_ReaderImpl] is ever constructed.  Its [__init__] ends
    with [load_header], which fails on every file; every call raises,
    whatever its arguments and whatever the file holds. *)
Theorem ReaderImpl_never_constructed
    (fname tabix_path : pyval) (lazy : bool) (samples threads : pyval) :
  exists e, _ReaderImpl.__init__ fname tabix_path lazy samples threads = Raise e.
Proof.
  unfold _ReaderImpl.__init__.
  repeat match goal with
         | |- exists e, (VCFFile.load_header _ ≫= _) = Raise e =>
             exists Segfault; reflexivity
         | |- exists e, (?m ≫= _) = Raise e =>
             destruct m as [?|?]; [rewrite bind_Return|eexists; reflexivity]
         | |- exists e, (let '(_, _) := ?p in _) = Raise e => destruct p
         end.
Qed.

(** ** FILTER over several reads *)

Lemma FILTER_first_PASS (r : Record.t) (σ : gmap loc VCFFile.t) bb l f h i :
  Record.b r = Some bb -> Record.vcf r = Some l -> σ !! l = Some f ->
  VCFFile.hdr f = Some h ->
  VCFFile.PASS f = -1 ->
  d_flt (d bb) = [i] ->
  bcf_hdr_int2id h BCF_DT_ID i = Return "PASS" ->
  Record.FILTER r σ
  = (Return (PyList [PyStr "PASS"]), <[l := VCFFile.set_PASS f i]> σ).
Proof.
  intros Hb Hv Hs Hh Hc E Hn.
  unfold Record.FILTER, Record.the_b. rewrite Hb. cbn [from_option].
  unfold n_flt. rewrite E.
  change (Z.of_nat (length [i]) =? 1) with true. cbn beta iota.
  rewrite Hv. cbn [from_option]. rewrite !bind_Return, Hs. cbn [from_option].
  rewrite !bind_Return, Hc. cbn [Z.eqb Pos.eqb negb].
  rewrite Hh. cbn [from_option]. rewrite bind_Return, c_index_head, bind_Return, Hn.
  rewrite bind_Return. reflexivity.
Qed.

(** X23: a passing record is reported in two ways.  The first record
    of a file whose single filter is named [PASS] gives the list
    holding [PASS]; from then on a record with that single filter,
    the same record read again included, gives the empty list. *)
Theorem FILTER_PASS_is_a_list_only_once
    (r r' : Record.t) (σ : gmap loc VCFFile.t) bb bb' l f h i :
  Record.b r = Some bb -> Record.b r' = Some bb' ->
  Record.vcf r = Some l -> Record.vcf r' = Some l ->
  σ !! l = Some f ->
  VCFFile.hdr f = Some h ->
  VCFFile.PASS f = -1 ->
  d_flt (d bb) = [i] -> d_flt (d bb') = [i] ->
  bcf_hdr_int2id h BCF_DT_ID i = Return "PASS" ->
  fst (Record.FILTER r σ) = Return (PyList [PyStr "PASS"]) /\
  Record.FILTER r' (snd (Record.FILTER r σ))
  = (Return (PyList []), snd (Record.FILTER r σ)).
Proof.
  intros Hb Hb' Hv Hv' Hs Hh Hc E E' Hn.
  rewrite (FILTER_first_PASS r σ bb l f h i) by assumption.
  split; [reflexivity|]. cbn [snd].
  apply (FILTER_cached_PASS r' _ bb' l (VCFFile.set_PASS f i)); try assumption.
  - apply lookup_insert_eq.
  - cbn. intros ->. discriminate Hn.
Qed.

(** X24: over any sequence of FILTER reads the [PASS] cache of a file
    changes at most once, and not at all once it is filled. *)
Theorem FILTER_cache_filled_at_most_once
    (rs : list Record.t) (σ : gmap loc VCFFile.t) (l : loc) (p : Z) :
  PASS_at l σ = Some p ->
  exists ps, PASS_at l <$> FILTER_run rs σ = Some <$> ps /\
             (changes (p :: ps) <= 1)%nat /\
             (p <> -1 -> changes (p :: ps) = 0%nat).
Proof. apply FILTER_PASS_written_once. Qed.

(** X25: FILTER by the number of filters of the record.  Without a
    filter the result is the empty list, and neither the file nor its
    header is looked at; with two filters or more the result is one
    [bytes] object, the names joined by [;], not a list of names.  The
    store is left as it was in both cases. *)
Theorem FILTER_by_number_of_filters
    (r : Record.t) (σ : gmap loc VCFFile.t) (bb : bcf1_t) :
  Record.b r = Some bb ->
  (d_flt (d bb) = [] -> Record.FILTER r σ = (Return (PyList []), σ)) /\
  (forall l f h names,
     Record.vcf r = Some l -> σ !! l = Some f -> VCFFile.hdr f = Some h ->
     (2 <= length (d_flt (d bb)))%nat ->
     mapM (bcf_hdr_int2id h BCF_DT_ID) (d_flt (d bb)) = Return names ->
     Record.FILTER r σ = (Return (PyBytes (String.concat ";" names)), σ)).
Proof.
  intros Hb. split.
  - intros E. apply (FILTER_none r σ bb Hb E).
  - intros l f h names Hv Hs Hh Hl Hn.
    apply (FILTER_several r σ bb l f h names); assumption.
Qed.
End further.

(** * The further properties at concrete inputs *)

(** X1 at the text [chr1] under a UTF-8 locale. *)
Lemma to_bytes_ensures_bytes_witness :
  exists c, PyBytes "chr1" = PyBytes c /\
            to_bytes (rt := utf8_runtime) (PyBytes "chr1") = Return (PyBytes "chr1") /\
            (forall c', PyStr "chr1" = PyBytes c' -> c = c').
Proof.
  apply (to_bytes_ensures_bytes (rt := utf8_runtime) (PyStr "chr1") (PyBytes "chr1")).
  reflexivity.
Defined.

(** X3 at the text [chr1] under a UTF-8 locale. *)
Lemma from_bytes_to_bytes_round_trip_witness :
  (b ← to_bytes (rt := utf8_runtime) (PyStr "chr1"); from_bytes (rt := utf8_runtime) b)
  = Return (PyStr "chr1").
Proof.
  apply (from_bytes_to_bytes_round_trip (rt := utf8_runtime) "chr1" "chr1"); reflexivity.
Defined.

(** X4 at the [contig] entry of [demo_hdr], whose sub-key [ID] occurs
    twice. *)
Lemma mapping_of_collapses_repeats_witness :
  exists m,
    HeaderLineFactory.mapping_of (rt := utf8_runtime) contig_hrec = Return m /\
    NoDup m.*1 /\
    m.*1 = ["ID"; "length"] /\
    forall k, assoc_first k m
              = assoc_last k [("ID", "chr1"); ("length", "1000"); ("ID", "chrX")].
Proof.
  apply (mapping_of_collapses_repeats (rt := utf8_runtime) contig_hrec
           [("ID", "chr1"); ("length", "1000"); ("ID", "chrX")]);
    [cbn; lia | reflexivity].
Defined.

(** X6 at the [contig] entry and a registry that knows [contig]. *)
Lemma build_needs_default_parser_witness :
  HeaderLineFactory.build (rt := utf8_runtime) no_default_factory contig_hrec
  = Raise (KeyError "__default__").
Proof.
  apply (build_needs_default_parser (rt := utf8_runtime) no_default_factory contig_hrec
           "contig" [("ID", "chrX"); ("length", "1000")]);
    [discriminate | reflexivity | reflexivity | reflexivity].
Defined.

(** X7 at a BCF file with the header [demo_hdr], opened with two
    threads. *)
Lemma init_opens_clean_file_witness :
  @nil string = [] /\
  (exists f h, VCFFile.hts opened_demo = Some f /\ VCFFile.hdr opened_demo = Some h /\
               VCFFile.n_samples opened_demo = bcf_hdr_nsamples h) /\
  VCFFile.PASS opened_demo = -1 /\
  VCFFile.idx opened_demo = None /\ VCFFile.hidx opened_demo = None /\
  VCFFile.lazy opened_demo = false.
Proof.
  apply (init_opens_clean_file (rt := utf8_runtime)
           (PyBytes "demo.bcf") (PyBytes "rb") false PyNone (PyInt 2) [] opened_demo).
  reflexivity.
Defined.

(** X8 at a path that does not exist, at one that cannot be opened and
    at a BAM file. *)
Lemma init_fatal_errors_witness :
  VCFFile.__init__ (rt := utf8_runtime) (lib := stub_htslib false true bcf demo_hdr)
    (PyStr "nowhere.bcf") (PyBytes "rb") false PyNone PyNone
  = Raise (Exception "bad path: %s" (PyStr "nowhere.bcf")) /\
  VCFFile.__init__ (rt := utf8_runtime) (lib := stub_htslib true false bcf demo_hdr)
    (PyStr "locked.bcf") (PyBytes "rb") false PyNone PyNone
  = Raise (IOError "Error opening %s" (PyBytes "locked.bcf")) /\
  VCFFile.__init__ (rt := utf8_runtime) (lib := stub_htslib true true bam demo_hdr)
    (PyStr "reads.bam") (PyBytes "rb") false PyNone PyNone
  = Raise (IOError "%s if not valid bcf or vcf" (PyBytes "reads.bam")).
Proof.
  split; [|split].
  - apply (proj1 (init_fatal_errors (rt := utf8_runtime)
                    (lib := stub_htslib false true bcf demo_hdr)
                    (PyStr "nowhere.bcf") (PyBytes "rb") false PyNone PyNone
                    "nowhere.bcf" "nowhere.bcf" "rb" (or_intror eq_refl))).
    reflexivity.
  - apply (proj1 (proj2 (init_fatal_errors (rt := utf8_runtime)
                           (lib := stub_htslib true false bcf demo_hdr)
                           (PyStr "locked.bcf") (PyBytes "rb") false PyNone PyNone
                           "locked.bcf" "locked.bcf" "rb" (or_intror eq_refl))
                   eq_refl eq_refl eq_refl)).
    reflexivity.
  - apply (proj2 (proj2 (init_fatal_errors (rt := utf8_runtime)
                           (lib := stub_htslib true true bam demo_hdr)
                           (PyStr "reads.bam") (PyBytes "rb") false PyNone PyNone
                           "reads.bam" "reads.bam" "rb" (or_intror eq_refl))
                   eq_refl eq_refl eq_refl) []);
      [reflexivity | discriminate | discriminate].
Defined.


(** X10 at the list holding the sample [A], which the header has: the
    status is 0 and the header keeps that sample only. *)
Lemma set_samples_by_status_witness :
  VCFFile.set_samples (rt := utf8_runtime) (demo_file (-1)) (PyList [PyStr "A"])
  = (Return [],
     VCFFile.set_hdr (demo_file (-1)) (Some (snd (mem_set_samples demo_hdr "A" 0)))).
Proof.
  apply (set_samples_by_status (rt := utf8_runtime) (demo_file (-1)) (PyList [PyStr "A"])
           "A" demo_hdr);
    [reflexivity | right; right; right; exists ["A"]; split; reflexivity].
Defined.

(** X12 at four threads, at 2.5 threads and at [2^31] threads on an
    open file: the native call gets 4 and 2, and is not made the third
    time. *)
Lemma set_threads_leaves_file_usable_witness :
  VCFFile.set_threads (demo_file (-1)) (PyInt 4)
  = (Return tt, VCFFile.set_hts (demo_file (-1)) (Some (mem_stream []))) /\
  as_c_int (PyFloat 0x40200000) = Return 2 /\
  VCFFile.set_threads (demo_file (-1)) (PyInt (2 ^ 31))
  = (Raise OverflowError, demo_file (-1)).
Proof.
  pose proof (set_threads_leaves_file_usable (demo_file (-1)) (PyInt 4) (mem_stream [])
                eq_refl) as [_ H4].
  pose proof (set_threads_leaves_file_usable (demo_file (-1)) (PyInt (2 ^ 31)) (mem_stream [])
                eq_refl) as [_ Hbig].
  split; [|split].
  - destruct (VCFFile.set_threads (demo_file (-1)) (PyInt 4)) as [out self'].
    cbn in H4. destruct H4 as (Hr & Hs & ->). rewrite Hs.
    destruct out as [[]|e]; [reflexivity|].
    exfalso. assert (0 < 0) as K by (apply Hr; eexists; reflexivity). lia.
  - reflexivity.
  - destruct (VCFFile.set_threads (demo_file (-1)) (PyInt (2 ^ 31))) as [out self'].
    cbn in Hbig. destruct Hbig as [-> ->]. reflexivity.
Defined.

(** X13 at the header [demo_hdr], with the samples [A] and [B]. *)
Lemma get_samples_in_header_order_witness :
  (forall vs, VCFFile.get_samples (rt := utf8_runtime) (demo_file (-1)) = Return (PyList vs) <->
     Forall2 (fun p v => from_bytes (rt := utf8_runtime) (PyBytes p) = Return v)
             ["A"; "B"] vs) /\
  (forall v, VCFFile.get_samples (rt := utf8_runtime) (demo_file (-1)) = Return v ->
     exists names, v = PyList (PyStr <$> names) /\ length names = 2%nat).
Proof.
  apply (get_samples_in_header_order (rt := utf8_runtime) (demo_file (-1)) demo_hdr).
  reflexivity.
Defined.

(** X14 at a file with one record left to read, and at a file with
    none. *)
Lemma next_buffer_owned_or_released_witness :
  (let '(ret, b, _) := @bcf_read mem_htslib (mem_stream [demo_bcf1 0 [0]]) demo_hdr in
   let '(res, tr, _) := VCFFile__next__ (lib := mem_htslib) 1%positive one_left in
   if ret >=? 0 then
     let bb := bcf_unpack (lib := mem_htslib) b 15 in
     let r := {| Record.b := Some bb; Record.vcf := Some 1%positive |} in
     res = Return r /\ tr = [] /\
     Record__dealloc__ (lib := mem_htslib) r
     = ([VCFFile.bcf_destroy bb], {| Record.b := None; Record.vcf := Some 1%positive |}) /\
     Record__dealloc__ (lib := mem_htslib) (snd (Record__dealloc__ (lib := mem_htslib) r))
     = ([], snd (Record__dealloc__ (lib := mem_htslib) r))
   else res = Raise StopIteration /\ tr = [VCFFile.bcf_destroy b]) /\
  (let '(res, tr, _) := VCFFile__next__ (lib := mem_htslib) 1%positive (demo_store (-1)) in
   res = Raise StopIteration /\ tr = [VCFFile.bcf_destroy (lib := mem_htslib) empty_bcf1]).
Proof.
  split.
  - apply (next_buffer_owned_or_released (lib := mem_htslib) 1%positive one_left
             (VCFFile.set_hts (demo_file (-1)) (Some (mem_stream [demo_bcf1 0 [0]])))
             (mem_stream [demo_bcf1 0 [0]]) demo_hdr); reflexivity.
  - apply (next_buffer_owned_or_released (lib := mem_htslib) 1%positive (demo_store (-1))
             (demo_file (-1)) (mem_stream []) demo_hdr); reflexivity.
Defined.

(** X16 at a fresh file and two reads, the first of a passing record. *)
Lemma FILTER_keeps_cache_sound_witness :
  Forall (fun σ' : gmap loc (VCFFile.t (lib := mem_htslib)) => forall l : loc,
            option_Forall2 (fun f f' : VCFFile.t (lib := mem_htslib) =>
                              f' = VCFFile.set_PASS f (VCFFile.PASS f') /\
                              cache_sound (lib := mem_htslib) f')
                           (demo_store (-1) !! l) (σ' !! l))
         (FILTER_run [demo_record 0 [0]; demo_record 0 [1]] (demo_store (-1))).
Proof.
  apply (FILTER_keeps_cache_sound [demo_record 0 [0]; demo_record 0 [1]] (demo_store (-1))).
  intros l f H. left. unfold demo_store in H.
  apply lookup_singleton_Some in H. destruct H as [_ <-]. reflexivity.
Defined.

(** X17 at the id [rs1;rs2]. *)
Lemma ID_one_more_than_separators_witness :
  exists ids,
    Record.ID (demo_record 0 []) = Return (PyList (PyStr <$> ids)) /\
    length ids = 2%nat /\
    (count_char ";" "rs1;rs2" = 0%nat -> ids = ["rs1;rs2"]).
Proof.
  apply (ID_one_more_than_separators (demo_record 0 []) (demo_bcf1 0 []));
    [reflexivity | discriminate].
Defined.

(** X18 at the alleles A, C, G and at a record whose second
    alternative allele is not UTF-8. *)
Lemma ALT_REF_decode_their_own_witness :
  (Record.REF (demo_record 0 []) = Return (PyStr "A") /\
   Record.ALT (demo_record 0 []) = Return (PyList [PyStr "C"; PyStr "G"])) /\
  (Record.REF {| Record.b := Some bad_alt_bcf1; Record.vcf := None |} = Return (PyStr "A") /\
   Record.ALT {| Record.b := Some bad_alt_bcf1; Record.vcf := None |}
   = Raise UnicodeDecodeError).
Proof.
  split.
  - apply (ALT_REF_decode_their_own (demo_record 0 []) (demo_bcf1 0 []) "A" ["C"; "G"]);
      reflexivity.
  - apply (ALT_REF_decode_their_own {| Record.b := Some bad_alt_bcf1; Record.vcf := None |}
             bad_alt_bcf1 "A" ["C"; String (ascii_of_nat 255) EmptyString]);
      reflexivity.
Defined.

(** X19 at a record on the first contig of [demo_hdr]. *)
Lemma CHROM_resolves_reference_id_witness :
  Record.CHROM (demo_record 0 []) (demo_store 0) = Return (PyStr "chr1") <->
  exists name, 0 <= 0 /\ ["chr1"] !! Z.to_nat 0 = Some name /\
               utf8_valid name = true /\ PyStr "chr1" = PyStr name.
Proof.
  apply (CHROM_resolves_reference_id (demo_record 0 []) (demo_store 0) (demo_bcf1 0 [])
           1%positive (demo_file 0) demo_hdr (PyStr "chr1")); reflexivity.
Defined.

(** X20 at the record at 0-based position 99 with the alleles A, C, G. *)
Lemma repr_of_valid_record_witness :
  Record__repr__ (demo_record 0 []) (demo_store 0)
  = Return (PyStr "Record(chr1:100 A/C,G)").
Proof.
  apply (repr_of_valid_record (demo_record 0 []) (demo_store 0) (demo_bcf1 0 [])
           "chr1" "A" ["C"; "G"]);
    [reflexivity | apply demo_bcf1_valid | reflexivity | reflexivity].
Defined.

(** X21 at the name [-] where [/dev/stdin] does not exist. *)
Lemma ReaderImpl_dash_is_stdin_witness :
  _ReaderImpl.__init__ (rt := utf8_runtime) (lib := stub_htslib false true bcf demo_hdr)
    (hm := demo_header) (PyStr "-") PyNone false PyNone (PyInt 2)
  = Raise (Exception "bad path: %s" (PyBytes "/dev/stdin")).
Proof.
  apply (ReaderImpl_dash_is_stdin (rt := utf8_runtime)
           (lib := stub_htslib false true bcf demo_hdr) (hm := demo_header)
           (PyStr "-") PyNone false PyNone (PyInt 2));
    [left; reflexivity | left; reflexivity
    | right; exists 2; split; [reflexivity | lia] | reflexivity].
Defined.

(** X23 at two passing records of a fresh file. *)
Lemma FILTER_PASS_is_a_list_only_once_witness :
  fst (Record.FILTER (demo_record 0 [0]) (demo_store (-1)))
  = Return (PyList [PyStr "PASS"]) /\
  Record.FILTER (demo_record 5 [0]) (snd (Record.FILTER (demo_record 0 [0]) (demo_store (-1))))
  = (Return (PyList []), snd (Record.FILTER (demo_record 0 [0]) (demo_store (-1)))).
Proof.
  apply (FILTER_PASS_is_a_list_only_once (demo_record 0 [0]) (demo_record 5 [0])
           (demo_store (-1)) (demo_bcf1 0 [0]) (demo_bcf1 5 [0]) 1%positive
           (demo_file (-1)) demo_hdr 0); reflexivity.
Defined.

(** X24 at three reads on a fresh file, the second and the third of a
    passing record. *)
Lemma FILTER_cache_filled_at_most_once_witness :
  exists ps,
    PASS_at 1%positive <$>
      FILTER_run [demo_record 0 [1]; demo_record 0 [0]; demo_record 0 [0]] (demo_store (-1))
    = Some <$> ps /\
    (changes ((-1)%Z :: ps) <= 1)%nat /\
    (-1 <> -1 -> changes (-1 :: ps) = 0%nat).
Proof.
  apply (FILTER_cache_filled_at_most_once
           [demo_record 0 [1]; demo_record 0 [0]; demo_record 0 [0]] (demo_store (-1))
           1%positive (-1)).
  reflexivity.
Defined.

(** X25 at a record without a filter and at one with the filters [q10]
    and [s50]. *)
Lemma FILTER_by_number_of_filters_witness :
  Record.FILTER (demo_record 0 []) (demo_store (-1))
  = (Return (PyList []), demo_store (-1)) /\
  Record.FILTER (demo_record 0 [1; 2]) (demo_store (-1))
  = (Return (PyBytes "q10;s50"), demo_store (-1)).
Proof.
  split.
  - apply (proj1 (FILTER_by_number_of_filters (demo_record 0 []) (demo_store (-1))
                    (demo_bcf1 0 []) eq_refl)).
    reflexivity.
  - apply (proj2 (FILTER_by_number_of_filters (demo_record 0 [1; 2]) (demo_store (-1))
                    (demo_bcf1 0 [1; 2]) eq_refl)
             1%positive (demo_file (-1)) demo_hdr ["q10"; "s50"]);
      [reflexivity | reflexivity | reflexivity | cbn; lia | reflexivity].
Defined.
